(** * Histogram chart data of the land-use demonstrator web app

    A shallow embedding of the chart utilities of the web front end
    ([getValues], [calculateTickStepSize], [prettyLabel], [bin], [getMean]
    and the [makeChartData] family) together with the properties the
    specification states about them.

    TypeScript's [number] is an IEEE 754 binary64 value; it is modelled by
    Rocq's primitive [float], whose operations are the binary64 ones
    (round to nearest, ties to even), so that every arithmetic step below
    rounds exactly as the program's does. *)

From Stdlib Require Import ZArith QArith Qround List String Ascii Bool Lia.
From Stdlib Require Import DecimalString Floats Uint63 Permutation.
Import ListNotations.

#[local] Set Warnings "-inexact-float".
#[local] Open Scope float_scope.

(** ** The language's built-in operations *)

Module JS.

(** A non-negative integer as a [number] (exact below [2^53]). *)
Definition of_N (n : N) : float := of_uint63 (Uint63.of_Z (Z.of_N n)).

Definition of_nat (n : nat) : float := of_N (N.of_nat n).

(** An integer as a [number] (zero is [+0]). *)
Definition of_Z (z : Z) : float :=
  if (z <? 0)%Z then - of_N (Z.abs_N z) else of_N (Z.abs_N z).

(** The exact value of a finite float with mantissa [m] and exponent [e]. *)
Definition exact (m : positive) (e : Z) : Q :=
  if (0 <=? e)%Z then inject_Z (Z.pos m * 2 ^ e)
  else Z.pos m # (Z.to_pos (2 ^ (- e))).

(** [Math.floor]: NaN, the infinities, both zeros and integral values are
    returned unchanged, anything else is rounded towards minus infinity. *)
Definition Math_floor (x : float) : float :=
  match Prim2SF x with
  | S754_finite s m e =>
      if (0 <=? e)%Z then x
      else of_Z (Qfloor (if s then - exact m e else exact m e)%Q)
  | _ => x
  end.

(** [Math.round]: the closest integer, a tie going towards plus infinity;
    a result of zero keeps the sign of the argument. *)
Definition Math_round (x : float) : float :=
  match Prim2SF x with
  | S754_finite s m e =>
      if (0 <=? e)%Z then x
      else
        let r := Qfloor ((if s then - exact m e else exact m e) + (1 # 2))%Q in
        if (r =? 0)%Z then (if s then neg_zero else zero) else of_Z r
  | _ => x
  end.

Definition Math_abs (x : float) : float := abs x.

(** The larger of two numbers as [Math.max] compares them: NaN wins over
    everything and [+0] is larger than [-0]. *)
Definition max2 (a b : float) : float :=
  if is_nan a then a
  else if is_nan b then b
  else if a <? b then b
  else if b <? a then a
  else if get_sign a then b else a.

Definition min2 (a b : float) : float :=
  if is_nan a then a
  else if is_nan b then b
  else if a <? b then a
  else if b <? a then b
  else if get_sign a then a else b.

(** [Math.max(...xs)] and [Math.min(...xs)]: with no argument they are
    [-Infinity] and [Infinity]. *)
Definition Math_max (xs : list float) : float := fold_left max2 xs neg_infinity.

Definition Math_min (xs : list float) : float := fold_left min2 xs infinity.

(** The array index a number denotes when it is a non-negative integer. *)
Definition to_index (x : float) : nat :=
  match Prim2SF x with
  | S754_finite false m e => Z.to_nat (Qfloor (exact m e))
  | _ => 0
  end.

(** *** Number to text

    [Number::toString] in radix 10 and [Number.prototype.toFixed], as the
    language standard defines them on the exact value of the float. *)

#[local] Open Scope string_scope.

Definition digits (z : Z) : string :=
  NilZero.string_of_uint (N.to_uint (Z.to_N z)).

Fixpoint zeros (n : nat) : string :=
  match n with
  | O => EmptyString
  | S n' => String "0" (zeros n')
  end.

Definition pow10 (p : Z) : Q :=
  if (0 <=? p)%Z then inject_Z (10 ^ p) else 1 # Z.to_pos (10 ^ (- p)).

Definition Qltb (a b : Q) : bool := negb (Qle_bool b a).

(** For [v < 1]: the [n] with [10^(n-1) <= v < 10^n], found by scaling. *)
Fixpoint scale_up (fuel : nat) (v : Q) (n : Z) : Z :=
  match fuel with
  | O => n
  | S fuel' =>
      if Qle_bool (1 # 10) v then n else scale_up fuel' (v * 10)%Q (n - 1)%Z
  end.

(** The decimal exponent [n] of a positive [v]: [10^(n-1) <= v < 10^n]. *)
Definition decimal_exponent (v : Q) : Z :=
  if Qle_bool 1 v then Z.of_nat (String.length (digits (Qfloor v)))
  else scale_up 400 v 0.

(** The open or closed interval of reals that round to the float
    [m * 2^e]: half way to each neighbour, the ends included when the
    mantissa is even. *)
Definition rounds_to (m : positive) (e : Z) (c : Q) : bool :=
  let v := exact m e in
  let up := exact 1 (e - 1) in
  let down :=
    if ((Z.pos m =? 2 ^ 52) && (-1074 <? e))%Z then exact 1 (e - 2) else up in
  if Z.even (Z.pos m)
  then Qle_bool (v - down) c && Qle_bool c (v + up)
  else Qltb (v - down) c && Qltb c (v + up).

(** The [k]-digit decimals next to [v] that round back to the float, the
    closest first; of two equally close ones the even one. *)
Definition shortest_at (m : positive) (e : Z) (n : Z) (k : Z) : option Z :=
  let v := exact m e in
  let p := pow10 (n - k) in
  let lo := Qfloor (v / p) in
  let hi := (lo + 1)%Z in
  let lo_ok := rounds_to m e (inject_Z lo * p) in
  let hi_ok := rounds_to m e (inject_Z hi * p) in
  match lo_ok, hi_ok with
  | true, true =>
      match (v - inject_Z lo * p ?= inject_Z hi * p - v)%Q with
      | Lt => Some lo
      | Gt => Some hi
      | Eq => Some (if Z.even lo then lo else hi)
      end
  | true, false => Some lo
  | false, true => Some hi
  | false, false => None
  end.

Fixpoint shortest (m : positive) (e : Z) (n : Z) (ks : list Z) : Z * Z :=
  match ks with
  | [] => (Qfloor (exact m e / pow10 (n - 17)), 17%Z)
  | k :: ks' =>
      match shortest_at m e n k with
      | Some s => (s, k)
      | None => shortest m e n ks'
      end
  end.

(** The digits [s], their number [k] and the exponent [n] of the standard's
    [Number::toString], for the positive float [m * 2^e]. *)
Definition shortest_digits (m : positive) (e : Z) : Z * Z * Z :=
  let n := decimal_exponent (exact m e) in
  let '(s, k) := shortest m e n (map Z.of_nat (seq 1 17)) in
  if (s =? 10 ^ k)%Z then ((10 ^ (k - 1))%Z, k, (n + 1)%Z) else (s, k, n).

Definition format_digits (s k n : Z) : string :=
  let ds := digits s in
  if ((k <=? n) && (n <=? 21))%Z then ds ++ zeros (Z.to_nat (n - k))
  else if ((0 <? n) && (n <=? 21))%Z then
    substring 0 (Z.to_nat n) ds ++ "." ++ substring (Z.to_nat n) (Z.to_nat (k - n)) ds
  else if ((-6 <? n) && (n <=? 0))%Z then
    "0." ++ zeros (Z.to_nat (- n)) ++ ds
  else
    let ex := (if (n - 1 <? 0)%Z then "-" else "+") ++ digits (Z.abs (n - 1)) in
    if (k =? 1)%Z then ds ++ "e" ++ ex
    else substring 0 1 ds ++ "." ++ substring 1 (Z.to_nat (k - 1)) ds ++ "e" ++ ex.

Definition toString (x : float) : string :=
  match Prim2SF x with
  | S754_nan => "NaN"
  | S754_zero _ => "0"
  | S754_infinity s => if s then "-Infinity" else "Infinity"
  | S754_finite s m e =>
      let '(d, k, n) := shortest_digits m e in
      (if s then "-" else EmptyString) ++ format_digits d k n
  end.

(** [x.toFixed(f)]: [x] rounded to [f] decimals (a tie going up in
    magnitude), with at least one digit before the point. *)
Definition toFixed (x : float) (f : nat) : string :=
  match Prim2SF x with
  | S754_finite s m e =>
      if Qle_bool (inject_Z (10 ^ 21)) (exact m e) then toString x
      else
        let n := Qfloor (exact m e * inject_Z (10 ^ Z.of_nat f) + (1 # 2)) in
        let ds := digits n in
        let ds := zeros (S f - String.length ds) ++ ds in
        let k := String.length ds in
        (if s then "-" else EmptyString) ++
        match f with
        | O => ds
        | S _ => substring 0 (k - f) ds ++ "." ++ substring (k - f) f ds
        end
  | S754_zero _ =>
      match f with O => "0" | S _ => "0." ++ zeros f end
  | _ => toString x
  end.

End JS.


(** ** Data of the application *)

Definition IndicatorName := string.

Module Config.

(** [config.scale]: the display range shared by every scenario. *)
Record Scale := { min : float; max : float }.

Record t := { scale : Scale }.

End Config.

Record Metadata := { short : string }.

(** A scenario. [values] is a [Map] from area identifier to a [Map] from
    indicator name to number; each is listed in insertion order, the order
    in which [Map.prototype.values] iterates. *)
Record Scenario := {
  metadata : Metadata;
  values : list (string * list (IndicatorName * float))
}.

Module Point.

Record t := { x : float; y : float }.

End Point.

Module ChartDataset.

(** [data: number[] | { x: number, y: number }[]] *)
Inductive Data :=
| Numbers (ns : list float)
| Points (ps : list Point.t).

(** [backgroundColor?: string[] | string] *)
Inductive Background :=
| Colors (cs : list string)
| Color (c : string).

(** An optional property that is not written is [None]. *)
Record t := {
  type : string;
  label : string;
  data : Data;
  backgroundColor : option Background;
  borderWidth : option float;
  showLine : option bool;
  grouped : option bool;
  order : option float;
  categoryPercentage : option float;
  barPercentage : option float;
  borderDash : option (list float);
  borderColor : option string;
  pointStyle : option string;
  pointRadius : option float
}.

End ChartDataset.

Record ChartData := {
  labels : list float;
  datasets : list ChartDataset.t;
  tickStepSize : float
}.

(** The argument of [prettyLabel]: declared a number, tested for a string. *)
Inductive TickValue :=
| Num (value : float)
| Str (value : string).

Record Bins := { counts : list float; centres : list float }.

(** ** Functions that use no external collaborator *)

(** [m.get(indicator)]. An absent indicator gives [undefined], which every
    use below turns into NaN ([undefined - x], [a + undefined]) or compares
    as NaN does ([undefined === max] is false, [undefined !== 0] is true):
    it is modelled by NaN. *)
Fixpoint Map_get (m : list (IndicatorName * float)) (key : IndicatorName) : float :=
  match m with
  | [] => nan
  | (k, v) :: m' => if String.eqb k key then v else Map_get m' key
  end.

Definition getValues (indicator : IndicatorName) (scenario : Scenario) : list float :=
  map (fun m => Map_get m indicator) (map snd (values scenario)).

(** U+2212 MINUS SIGN, as its three UTF-8 bytes. *)
Definition minus_sign : string :=
  String (ascii_of_nat 226) (String (ascii_of_nat 136) (String (ascii_of_nat 146) EmptyString)).

Definition prettyLabel (value : TickValue) (withSign : bool) : string :=
  match value with
  | Str s => s
  | Num value =>
      if value =? 0 then "0"%string
      else if 1000000 <=? value then
        ((if withSign then "+" else EmptyString)
           ++ JS.toString (value / 1000000) ++ "M")%string
      else if 1000 <=? value then
        ((if withSign then "+" else EmptyString)
           ++ JS.toString (value / 1000) ++ "K")%string
      else if value <=? -1000000 then
        (minus_sign ++ JS.toString (JS.Math_abs (value / 1000000)) ++ "M")%string
      else if value <=? -1000 then
        (minus_sign ++ JS.toString (JS.Math_abs (value / 1000)) ++ "K")%string
      else if 0 <=? value then
        ((if withSign then "+" else EmptyString) ++ JS.toString value)%string
      else (minus_sign ++ JS.toString (JS.Math_abs value))%string
  end.

(** [counts[i] += 1]. Outside the array (only [counts[-1]] of an empty
    array can be) the assignment creates no element. *)
Fixpoint incr (i : nat) (counts : list float) : list float :=
  match counts, i with
  | [], _ => []
  | c :: cs, O => (c + 1) :: cs
  | c :: cs, S i' => c :: incr i' cs
  end.

(** The body of the loop of [bin], for one value [d]. *)
Definition bin_step (min max stepSize : float) (nsteps : nat)
    (counts : list float) (d : float) : list float :=
  let counts :=
    if d =? max then
      match nsteps with
      | O => counts
      | S last => incr last counts
      end
    else counts in
  let bin := JS.Math_floor ((d - min) / stepSize) in
  if (0 <=? bin) && (bin <? JS.of_nat nsteps) then incr (JS.to_index bin) counts
  else counts.

(** [bin(data, min, max, nsteps)]. [nsteps] is an array length: a
    non-negative integer below [2^32] ([Array(nsteps)] throws otherwise). *)
Definition bin (data : list float) (min max : float) (nsteps : nat) : Bins :=
  let stepSize := (max - min) / JS.of_nat nsteps in
  let counts := fold_left (bin_step min max stepSize nsteps) data (repeat 0 nsteps) in
  let centres := map (fun i => min + (JS.of_nat i + 0.5) * stepSize) (seq 0 nsteps) in
  {| counts := counts; centres := centres |}.

Definition getMean (xs : list float) : float :=
  fold_left (fun a b => a + b) xs 0 / JS.of_nat (List.length xs).

(** The range of the difference chart, from the retained differences. *)
Definition differenceMax (rawValues : list float) : float :=
  JS.Math_max [JS.Math_abs (JS.Math_min rawValues);
               JS.Math_abs (JS.Math_max rawValues);
               0.1].

(** [scenValues.map((value, i) => value - cmpScenValues[i])
       .filter((value) => value !== 0)]; an index past the end of
    [cmpScenValues] reads [undefined]. *)
Definition differences (scenValues cmpScenValues : list float) : list float :=
  filter (fun value => negb (value =? 0))
    (map (fun '(i, value) => value - nth i cmpScenValues nan)
       (combine (seq 0 (List.length scenValues)) scenValues)).

(** ** Functions that use the external collaborators

    [Math.log10] and the exponentiation operator are approximated by the
    platform, [makeColormap] and [config] are imported from other modules
    of the application: all four are taken as given. *)

Section Charts.

Variable Math_log10 : float -> float.
Variable Math_pow : float -> float -> float.
Variable makeColormap : string -> nat -> list string.
Variable config : Config.t.

Definition calculateTickStepSize (max min : float) : float :=
  let s := (max - min) / 4 in
  if s <? 0.5 then 0.5
  else if s <? 1 then 1
  else if 100 <? s then
    let orderOfMagnitude := Math_pow 10 (JS.Math_floor (Math_log10 s)) in
    JS.Math_round (s / orderOfMagnitude) * orderOfMagnitude
  else JS.Math_round s.

Definition makeChartDataOneScenario
    (indicator : IndicatorName) (scenario : Scenario) (nbars : nat) : ChartData :=
  let colors := makeColormap indicator nbars in
  let rawValues := getValues indicator scenario in
  let bins :=
    bin rawValues (Config.min (Config.scale config)) (Config.max (Config.scale config)) nbars in
  let mean := getMean rawValues in
  {| datasets :=
       [ {| ChartDataset.type := "scatter";
            ChartDataset.label := ("Mean: " ++ JS.toFixed mean 2)%string;
            ChartDataset.data :=
              ChartDataset.Points
                [ {| Point.x := mean; Point.y := 5 |};
                  {| Point.x := mean; Point.y := JS.Math_max (counts bins) * 1.1 |} ];
            ChartDataset.backgroundColor := None;
            ChartDataset.borderWidth := Some 1.5;
            ChartDataset.showLine := Some true;
            ChartDataset.grouped := None;
            ChartDataset.order := None;
            ChartDataset.categoryPercentage := None;
            ChartDataset.barPercentage := None;
            ChartDataset.borderDash := Some [6; 3];
            ChartDataset.borderColor := Some "#000000"%string;
            ChartDataset.pointStyle := Some "line"%string;
            ChartDataset.pointRadius := Some 0 |};
         {| ChartDataset.type := "bar";
            ChartDataset.label := short (metadata scenario);
            ChartDataset.data := ChartDataset.Numbers (counts bins);
            ChartDataset.backgroundColor := Some (ChartDataset.Colors colors);
            ChartDataset.borderWidth := Some 0;
            ChartDataset.showLine := None;
            ChartDataset.grouped := None;
            ChartDataset.order := None;
            ChartDataset.categoryPercentage := Some 1;
            ChartDataset.barPercentage := Some 1;
            ChartDataset.borderDash := None;
            ChartDataset.borderColor := None;
            ChartDataset.pointStyle := Some "rect"%string;
            ChartDataset.pointRadius := None |} ];
     labels := centres bins;
     tickStepSize :=
       calculateTickStepSize (Config.max (Config.scale config)) (Config.min (Config.scale config)) |}.

Definition makeChartDataTwoScenarios
    (indicator : IndicatorName) (scenario compareScenario : Scenario) (nbars : nat)
    : ChartData :=
  let colors := makeColormap indicator nbars in
  let rawValues := getValues indicator scenario in
  let cmpRawValues := getValues indicator compareScenario in
  let bins :=
    bin rawValues (Config.min (Config.scale config)) (Config.max (Config.scale config)) nbars in
  let cmpBins :=
    bin cmpRawValues (Config.min (Config.scale config)) (Config.max (Config.scale config)) nbars in
  let mean := getMean rawValues in
  let cmpMean := getMean cmpRawValues in
  {| datasets :=
       [ {| ChartDataset.type := "scatter";
            ChartDataset.label :=
              (short (metadata compareScenario) ++ " mean: " ++ JS.toFixed cmpMean 2)%string;
            ChartDataset.data :=
              ChartDataset.Points
                [ {| Point.x := mean; Point.y := 5 |};
                  {| Point.x := mean; Point.y := JS.Math_max (counts bins) * 1.1 |} ];
            ChartDataset.backgroundColor := None;
            ChartDataset.borderWidth := Some 1.5;
            ChartDataset.showLine := Some true;
            ChartDataset.grouped := None;
            ChartDataset.order := None;
            ChartDataset.categoryPercentage := None;
            ChartDataset.barPercentage := None;
            ChartDataset.borderDash := Some [6; 3];
            ChartDataset.borderColor := Some "#ff0000"%string;
            ChartDataset.pointStyle := Some "line"%string;
            ChartDataset.pointRadius := Some 0 |};
         {| ChartDataset.type := "scatter";
            ChartDataset.label :=
              (short (metadata scenario) ++ " mean: " ++ JS.toFixed mean 2)%string;
            ChartDataset.data :=
              ChartDataset.Points
                [ {| Point.x := mean; Point.y := 5 |};
                  {| Point.x := mean; Point.y := JS.Math_max (counts bins) * 1.1 |} ];
            ChartDataset.backgroundColor := None;
            ChartDataset.borderWidth := Some 1.5;
            ChartDataset.showLine := Some true;
            ChartDataset.grouped := None;
            ChartDataset.order := None;
            ChartDataset.categoryPercentage := None;
            ChartDataset.barPercentage := None;
            ChartDataset.borderDash := Some [6; 3];
            ChartDataset.borderColor := Some "#000000"%string;
            ChartDataset.pointStyle := Some "line"%string;
            ChartDataset.pointRadius := Some 0 |};
         {| ChartDataset.type := "bar";
            ChartDataset.label := short (metadata compareScenario);
            ChartDataset.data := ChartDataset.Numbers (counts cmpBins);
            ChartDataset.backgroundColor :=
              Some (ChartDataset.Color "rgba(1, 1, 1, 0)");
            ChartDataset.borderWidth := Some 1;
            ChartDataset.showLine := None;
            ChartDataset.grouped := Some false;
            ChartDataset.order := Some 1;
            ChartDataset.categoryPercentage := Some 1;
            ChartDataset.barPercentage := Some 1;
            ChartDataset.borderDash := None;
            ChartDataset.borderColor := Some "#f00"%string;
            ChartDataset.pointStyle := Some "rect"%string;
            ChartDataset.pointRadius := None |};
         {| ChartDataset.type := "bar";
            ChartDataset.label := short (metadata scenario);
            ChartDataset.data := ChartDataset.Numbers (counts bins);
            ChartDataset.backgroundColor := Some (ChartDataset.Colors colors);
            ChartDataset.borderWidth := Some 0;
            ChartDataset.showLine := None;
            ChartDataset.grouped := Some false;
            ChartDataset.order := Some 2;
            ChartDataset.categoryPercentage := Some 1;
            ChartDataset.barPercentage := Some 1;
            ChartDataset.borderDash := None;
            ChartDataset.borderColor := None;
            ChartDataset.pointStyle := Some "rect"%string;
            ChartDataset.pointRadius := None |} ];
     labels := centres bins;
     tickStepSize :=
       calculateTickStepSize (Config.max (Config.scale config)) (Config.min (Config.scale config)) |}.

Definition makeChartDataDifference
    (indicator : IndicatorName) (scenario compareScenario : Scenario) (nbars : nat)
    : ChartData :=
  let colors := makeColormap "diff" nbars in
  let scenValues := getValues indicator scenario in
  let cmpScenValues := getValues indicator compareScenario in
  let rawValues := differences scenValues cmpScenValues in
  let max := differenceMax rawValues in
  let min := - max in
  let bins := bin rawValues min max nbars in
  {| datasets :=
       [ {| ChartDataset.type := "bar";
            ChartDataset.label := "Difference";
            ChartDataset.data := ChartDataset.Numbers (counts bins);
            ChartDataset.backgroundColor := Some (ChartDataset.Colors colors);
            ChartDataset.borderWidth := Some 0;
            ChartDataset.showLine := None;
            ChartDataset.grouped := None;
            ChartDataset.order := None;
            ChartDataset.categoryPercentage := Some 1;
            ChartDataset.barPercentage := Some 1;
            ChartDataset.borderDash := None;
            ChartDataset.borderColor := None;
            ChartDataset.pointStyle := Some "rect"%string;
            ChartDataset.pointRadius := None |} ];
     labels := centres bins;
     tickStepSize := calculateTickStepSize max min |}.

(** [makeChartData]. [compareScenario] is [Scenario | null]; [chartStyle]
    is whatever string the caller passes. A call that reaches the end of
    the function without a [return] yields [undefined]: [None]. *)
Definition makeChartData
    (indicator : IndicatorName) (scenario : Scenario)
    (compareScenario : option Scenario) (nbars : nat) (chartStyle : string)
    : option ChartData :=
  match compareScenario with
  | None => Some (makeChartDataOneScenario indicator scenario nbars)
  | Some compareScenario =>
      if String.eqb chartStyle "both" then
        Some (makeChartDataTwoScenarios indicator scenario compareScenario nbars)
      else if String.eqb chartStyle "difference" then
        Some (makeChartDataDifference indicator scenario compareScenario nbars)
      else None
  end.

End Charts.

(** ** A reference platform for closed examples

    [Math.floor(Math.log10(s))] is the only use the program makes of the
    logarithm: the reference [log10] returns that floor exactly. The
    reference exponentiation multiplies repeatedly, for the non-negative
    integer exponents the program passes. *)

Module Reference.

Definition log10 (s : float) : float :=
  match Prim2SF s with
  | S754_finite false m e => JS.of_Z (JS.decimal_exponent (JS.exact m e) - 1)
  | S754_infinity false => infinity
  | S754_zero _ => neg_infinity
  | _ => nan
  end.

Definition pow (base exponent : float) : float :=
  match Prim2SF exponent with
  | S754_zero _ => 1
  | S754_finite false _ _ =>
      fold_left (fun acc _ => acc * base) (seq 0 (JS.to_index exponent)) 1
  | _ => nan
  end.

(** A colormap with one grey per bar. *)
Definition makeColormap (_ : string) (n : nat) : list string :=
  repeat "#808080"%string n.

Definition config (min max : float) : Config.t :=
  {| Config.scale := {| Config.min := min; Config.max := max |} |}.

Definition indicator : IndicatorName := "air_quality"%string.

(** Two scenarios over the same two areas. *)
Definition scenarioA : Scenario :=
  {| metadata := {| short := "A" |};
     values := [ ("E01"%string, [(indicator, 1)]);
                 ("E02"%string, [(indicator, 2)]) ] |}.

Definition scenarioB : Scenario :=
  {| metadata := {| short := "B" |};
     values := [ ("E01"%string, [(indicator, 3)]);
                 ("E02"%string, [(indicator, 3)]) ] |}.

(** A scenario that lacks the second area. *)
Definition scenarioShort : Scenario :=
  {| metadata := {| short := "S" |};
     values := [ ("E01"%string, [(indicator, 3)]) ] |}.

End Reference.

(** Whether a text begins with the plus sign. *)
Definition starts_with_plus (s : string) : bool :=
  match s with
  | String c _ => Ascii.eqb c "+"
  | EmptyString => false
  end.

(** Whether a text begins with the character [c]. *)
Definition first_char_is (c : ascii) (s : string) : bool :=
  match s with
  | String a _ => Ascii.eqb c a
  | EmptyString => false
  end.

(** The characters a non-negative number's text can begin with, and the
    characters that can follow its leading part. *)
Definition number_chars : list ascii :=
  ["0"; "1"; "2"; "3"; "4"; "5"; "6"; "7"; "8"; "9"; "."; "e"; "I"; "N"; "M"; "K"; "+"]%char.

(** Whether a float is a negative number or minus infinity. *)
Definition negative_signed (x : float) : bool :=
  match Prim2SF x with
  | S754_infinity true | S754_finite true _ _ => true
  | _ => false
  end.

(** The sum of an array of numbers. *)
Definition sum (xs : list float) : float := fold_left (fun a b => a + b) xs 0.

(** Strictly increasing, as the comparison of numbers decides it. *)
Fixpoint increasing (xs : list float) : bool :=
  match xs with
  | a :: ((b :: _) as rest) => (a <? b) && increasing rest
  | _ => true
  end.

(** The indices that the loop of [bin] increments for one value [d], in
    the order in which it increments them: the last index when [d] is
    [max], then the index of the bin of [d] when it is in range. *)
Definition increments (min max stepSize : float) (nsteps : nat) (d : float) : list nat :=
  ((if d =? max then
      match nsteps with
      | O => []
      | S last => [last]
      end
    else [])
   ++
   (let bin := JS.Math_floor ((d - min) / stepSize) in
    if (0 <=? bin) && (bin <? JS.of_nat nsteps) then [JS.to_index bin] else []))%list.

(** The number reached from 0 by [k] increments [+= 1]. *)
Definition count_of (k : nat) : float := Nat.iter k (fun c => c + 1) 0.

(** [incr] on numbers of increments. *)
Fixpoint incr_nat (i : nat) (hs : list nat) : list nat :=
  match hs, i with
  | [], _ => []
  | h :: hs', O => S h :: hs'
  | h :: hs', S i' => h :: incr_nat i' hs'
  end.

(** [2^52], the mantissa of a power of two. *)
Definition two52 : positive := 4503599627370496.

(** * Properties *)

(** ** Tools *)

(** Two floats with different binary64 representations are different. *)
Lemma float_neq (a b : float) : Prim2SF a <> Prim2SF b -> a <> b.
Proof. intros Hne Heq. apply Hne. now rewrite Heq. Qed.

(** ** The binner *)

Lemma incr_length (i : nat) (cs : list float) : List.length (incr i cs) = List.length cs.
Proof.
  revert i. induction cs as [| c cs IH]; intros [| i]; simpl; auto.
Qed.

Lemma bin_step_length (min max stepSize : float) (nsteps : nat) (cs : list float) (d : float) :
  List.length (bin_step min max stepSize nsteps cs d) = List.length cs.
Proof.
  unfold bin_step.
  destruct (d =? max), nsteps, ((0 <=? _) && _)%bool;
    repeat rewrite incr_length; reflexivity.
Qed.


(** The centres are computed from the range and the number of bins alone. *)
Lemma bin_centres (data : list float) (min max : float) (nsteps : nat) :
  centres (bin data min max nsteps) =
  map (fun i => min + (JS.of_nat i + 0.5) * ((max - min) / JS.of_nat nsteps)) (seq 0 nsteps).
Proof. reflexivity. Qed.

(** C3, as the specification states it, fails: the value 1 lies in the bin
    [[1, 2)], so the first bin of [bin([1,2,3,4,5], 0, 5, 5)] is empty. *)
Lemma bin_one_to_five_counts_not_all_one :
  counts (bin [1; 2; 3; 4; 5] 0 5 5) <> [1; 1; 1; 1; 1].
Proof.
  intros H. apply (f_equal (fun cs => Prim2SF (hd 0 cs))) in H.
  vm_compute in H. discriminate.
Qed.

(** C3, amended: [bin([1,2,3,4,5], 0, 5, 5)] has counts [[0,1,1,1,2]] (each
    of 1 to 4 in the bin that starts at it, 5 = max in the last bin) and
    centres [[0.5,1.5,2.5,3.5,4.5]]. *)
Theorem bin_one_to_five :
  bin [1; 2; 3; 4; 5] 0 5 5 =
  {| counts := [0; 1; 1; 1; 2]; centres := [0.5; 1.5; 2.5; 3.5; 4.5] |}.
Proof. vm_compute. reflexivity. Qed.

(** C5 at the failing input [bin([9], 0, 9, 7)]: the value 9 = max is
    counted by the special case, and counted again because the index
    computation that follows is not skipped: [9 / (9 / 7)] is
    [6.999999999999999] in binary64, whose floor is the last index 6. *)
Theorem bin_counts_max_twice :
  ((9 - 0) / ((9 - 0) / JS.of_nat 7) <? 7) = true /\
  JS.Math_floor ((9 - 0) / ((9 - 0) / JS.of_nat 7)) = 6 /\
  counts (bin [9] 0 9 7) = [0; 0; 0; 0; 0; 0; 2].
Proof. vm_compute. repeat split; reflexivity. Qed.

(** C6 at the failing input [bin([25, 50], 0, 50, 11)]: both values lie in
    [[min, max]], and the counts sum to 3, more than the 2 values. *)
Theorem bin_counts_sum_exceeds_length :
  forallb (fun d => (0 <=? d) && (d <=? 50)) [25; 50] = true /\
  ((50 - 0) / ((50 - 0) / JS.of_nat 11) <? 11) = true /\
  counts (bin [25; 50] 0 50 11) = [0; 0; 0; 0; 0; 1; 0; 0; 0; 0; 2] /\
  sum (counts (bin [25; 50] 0 50 11)) = 3 /\
  List.length [25; 50] = 2%nat.
Proof. vm_compute. repeat split; reflexivity. Qed.

(** ** The tick step *)

Section TickStep.

Variable Math_log10 : float -> float.
Variable Math_pow : float -> float -> float.

#[local] Abbreviation tick := (calculateTickStepSize Math_log10 Math_pow).

(** C4, amended: whatever the platform's logarithm and power are,
    [calculateTickStepSize(104, 0)] is 26, by the last branch ([raw] is 26,
    not above 100); [calculateTickStepSize(1, 0)] is 0.5 and
    [calculateTickStepSize(3, 0)] is 1; and with [raw = (max - min) / 4] the
    four branches are taken in this order: [raw < 0.5] gives 0.5, else
    [raw < 1] gives 1, else [raw > 100] gives
    [round(raw / magnitude) * magnitude] with
    [magnitude = 10 ** floor(log10(raw))], else [round(raw)]. *)
Theorem calculateTickStepSize_branches :
  (((104 - 0) / 4 = 26 /\ (100 <? 26) = false) /\ tick 104 0 = 26
   /\ tick 1 0 = 0.5 /\ tick 3 0 = 1)
  /\ forall max min : float,
       let raw := (max - min) / 4 in
       let magnitude := Math_pow 10 (JS.Math_floor (Math_log10 raw)) in
       ((raw <? 0.5) = true -> tick max min = 0.5)
       /\ ((raw <? 0.5) = false -> (raw <? 1) = true -> tick max min = 1)
       /\ ((raw <? 0.5) = false -> (raw <? 1) = false -> (100 <? raw) = true ->
           tick max min = JS.Math_round (raw / magnitude) * magnitude)
       /\ ((raw <? 0.5) = false -> (raw <? 1) = false -> (100 <? raw) = false ->
           tick max min = JS.Math_round raw).
Proof.
  split.
  - repeat split; vm_compute; reflexivity.
  - intros max min raw magnitude. unfold calculateTickStepSize.
    fold raw. fold magnitude.
    repeat split; intros; repeat match goal with H : _ = _ |- _ => rewrite H end;
      reflexivity.
Qed.

End TickStep.

(** C4, as the specification states it, fails: no logarithm and power make
    [calculateTickStepSize(104, 0)] equal to 25. *)
Lemma calculateTickStepSize_104_not_25 :
  ~ exists (Math_log10 : float -> float) (Math_pow : float -> float -> float),
      calculateTickStepSize Math_log10 Math_pow 104 0 = 25.
Proof.
  intros (l & p & H). revert H. apply float_neq. vm_compute. discriminate.
Qed.

(** The four branches on the reference platform, at ranges of width 1, 3,
    2000 and 104. *)
Lemma calculateTickStepSize_branches_witness :
  calculateTickStepSize Reference.log10 Reference.pow 1 0 = 0.5
  /\ calculateTickStepSize Reference.log10 Reference.pow 3 0 = 1
  /\ calculateTickStepSize Reference.log10 Reference.pow 2000 0 = 500
  /\ calculateTickStepSize Reference.log10 Reference.pow 104 0 = 26.
Proof.
  pose proof (calculateTickStepSize_branches Reference.log10 Reference.pow) as [_ H].
  refine (conj _ (conj _ (conj _ _))).
  - destruct (H 1 0) as (H1 & _). apply H1; reflexivity.
  - destruct (H 3 0) as (_ & H2 & _). apply H2; reflexivity.
  - destruct (H 2000 0) as (_ & _ & H3 & _). apply H3; reflexivity.
  - destruct (H 104 0) as (_ & _ & _ & H4). apply H4; reflexivity.
Defined.

(** ** The chart payloads *)

Section Payloads.

Variable Math_log10 : float -> float.
Variable Math_pow : float -> float -> float.
Variable makeColormap : string -> nat -> list string.
Variable config : Config.t.

#[local] Abbreviation oneScenario :=
  (makeChartDataOneScenario Math_log10 Math_pow makeColormap config).
#[local] Abbreviation twoScenarios :=
  (makeChartDataTwoScenarios Math_log10 Math_pow makeColormap config).
#[local] Abbreviation difference :=
  (makeChartDataDifference Math_log10 Math_pow makeColormap).
#[local] Abbreviation chartData :=
  (makeChartData Math_log10 Math_pow makeColormap config).

(** In the overlay payload the marker of the comparison scenario (the
    first dataset) carries the same two points as the marker of the
    primary scenario (the second dataset): both are built from the mean
    and the counts of the primary scenario. *)
Lemma twoScenarios_markers_coincide
    (indicator : IndicatorName) (scenario compareScenario : Scenario) (nbars : nat) :
  let mean := getMean (getValues indicator scenario) in
  let bins :=
    bin (getValues indicator scenario)
      (Config.min (Config.scale config)) (Config.max (Config.scale config)) nbars in
  map ChartDataset.data (firstn 2 (datasets (twoScenarios indicator scenario compareScenario nbars)))
  = let marker :=
      ChartDataset.Points
        [ {| Point.x := mean; Point.y := 5 |};
          {| Point.x := mean; Point.y := JS.Math_max (counts bins) * 1.1 |} ] in
    [marker; marker].
Proof. reflexivity. Qed.

(** C9: without a comparison scenario [makeChartData] returns the
    single-scenario payload whatever the chart style; with one it returns
    the overlay payload for the style "both", the difference payload for
    the style "difference", and [undefined] for every other style. *)
Theorem makeChartData_dispatch
    (indicator : IndicatorName) (scenario : Scenario) (nbars : nat) :
  (forall chartStyle : string,
      chartData indicator scenario None nbars chartStyle
      = Some (oneScenario indicator scenario nbars))
  /\ (forall compareScenario : Scenario,
         chartData indicator scenario (Some compareScenario) nbars "both"
         = Some (twoScenarios indicator scenario compareScenario nbars)
         /\ chartData indicator scenario (Some compareScenario) nbars "difference"
            = Some (difference indicator scenario compareScenario nbars)
         /\ forall chartStyle : string,
              chartStyle <> "both"%string -> chartStyle <> "difference"%string ->
              chartData indicator scenario (Some compareScenario) nbars chartStyle = None).
Proof.
  split; [reflexivity |].
  intros compareScenario. repeat apply conj; try reflexivity.
  intros chartStyle Hboth Hdiff. unfold makeChartData.
  apply String.eqb_neq in Hboth, Hdiff. now rewrite Hboth, Hdiff.
Qed.

(** C10: in the single-scenario and the overlay payload the tick step and
    the labels are determined by [config.scale] and the number of bars; two
    scenarios (or two pairs of scenarios) give the same ones, for the same
    indicator or not. *)
Theorem labels_and_tickStepSize_ignore_scenarios
    (indicator indicator' : IndicatorName)
    (scenario scenario' compareScenario compareScenario' : Scenario) (nbars : nat) :
  let min := Config.min (Config.scale config) in
  let max := Config.max (Config.scale config) in
  let one := oneScenario indicator scenario nbars in
  let one' := oneScenario indicator' scenario' nbars in
  let two := twoScenarios indicator scenario compareScenario nbars in
  let two' := twoScenarios indicator' scenario' compareScenario' nbars in
  (labels one = centres (bin [] min max nbars)
   /\ tickStepSize one = calculateTickStepSize Math_log10 Math_pow max min)
  /\ (labels two = centres (bin [] min max nbars)
      /\ tickStepSize two = calculateTickStepSize Math_log10 Math_pow max min)
  /\ (labels one = labels one' /\ tickStepSize one = tickStepSize one')
  /\ (labels two = labels two' /\ tickStepSize two = tickStepSize two').
Proof.
  cbv zeta. unfold makeChartDataOneScenario, makeChartDataTwoScenarios.
  cbn [labels tickStepSize]. rewrite !bin_centres.
  repeat apply conj; reflexivity.
Qed.

End Payloads.

(** The undefined result of [makeChartData] on the reference platform: two
    scenarios and the style "stacked". *)
Lemma makeChartData_dispatch_witness :
  makeChartData Reference.log10 Reference.pow Reference.makeColormap (Reference.config 0 4)
    Reference.indicator Reference.scenarioA (Some Reference.scenarioB) 2 "stacked" = None.
Proof.
  apply (makeChartData_dispatch Reference.log10 Reference.pow Reference.makeColormap
           (Reference.config 0 4) Reference.indicator Reference.scenarioA 2);
    discriminate.
Defined.

(** C1 at a failing input: scenario A has the values 1 and 2 (mean 1.5,
    counts [[1, 1]] over [[0, 4]] in 2 bins), the comparison scenario B has
    3 and 3 (mean 3, counts [[0, 2]]). The red marker is labelled with the
    mean of B and drawn at the mean of A, up to 1.1 times the largest count
    of A. *)
Theorem twoScenarios_comparison_marker_at_primary_mean :
  let cfg := Reference.config 0 4 in
  let payload :=
    makeChartDataTwoScenarios Reference.log10 Reference.pow Reference.makeColormap cfg
      Reference.indicator Reference.scenarioA Reference.scenarioB 2 in
  let cmpValues := getValues Reference.indicator Reference.scenarioB in
  (getMean cmpValues = 3 /\ JS.Math_max (counts (bin cmpValues 0 4 2)) * 1.1 = 2.2)
  /\ map (fun d => (ChartDataset.label d, ChartDataset.borderColor d, ChartDataset.data d))
       (firstn 1 (datasets payload))
     = [ ("B mean: 3.00"%string, Some "#ff0000"%string,
          ChartDataset.Points [ {| Point.x := 1.5; Point.y := 5 |};
                                {| Point.x := 1.5; Point.y := 1 * 1.1 |} ]) ].
Proof. vm_compute. repeat apply conj; reflexivity. Qed.

(** C2 at a failing input: the difference of scenario A with itself. Every
    difference is 0 and dropped, and the range bound computed from the
    empty list is [Infinity], not 0.1: [Math.min()] is [Infinity] and
    [Math.max()] is [-Infinity]. Every label of the payload is NaN. *)
Theorem difference_of_identical_scenarios_unbounded :
  let vals := getValues Reference.indicator Reference.scenarioA in
  differences vals vals = []
  /\ differenceMax (differences vals vals) = infinity
  /\ labels (makeChartDataDifference Reference.log10 Reference.pow Reference.makeColormap
               Reference.indicator Reference.scenarioA Reference.scenarioA 4)
     = [nan; nan; nan; nan].
Proof. vm_compute. repeat apply conj; reflexivity. Qed.

(** ** The label formatter *)

(** Rounding keeps the sign it is given: the magnitude of a rounded result
    does not depend on it. *)
Lemma SFabs_binary_round_aux (s : bool) (m e : Z) (l : location) :
  SFabs (binary_round_aux prec emax s m e l) = binary_round_aux prec emax false m e l.
Proof.
  unfold binary_round_aux.
  destruct (shr_fexp prec emax m e l) as [mrs' e'].
  destruct (shr_fexp prec emax _ e' loc_Exact) as [mrs'' e''].
  destruct (shr_m mrs''); try reflexivity.
  destruct (e'' <=? emax - prec)%Z; reflexivity.
Qed.

Lemma SFabs_SFdiv (x : spec_float) (my : positive) (ey : Z) :
  SFabs (SF64div x (S754_finite false my ey))
  = SF64div (SFabs x) (S754_finite false my ey).
Proof.
  unfold SF64div.
  destruct x as [sx | sx | | sx mx ex]; try reflexivity.
  cbn [SFdiv SFabs].
  destruct (SFdiv_core_binary prec emax (Z.pos mx) ex (Z.pos my) ey) as [[mz ez] lz].
  cbn [xorb]. rewrite SFabs_binary_round_aux. now destruct sx.
Qed.

(** [Math.abs(value / c)] is [Math.abs(value) / c] for a positive
    constant [c]. *)
Lemma abs_div_pos (v c : float) (mc : positive) (ec : Z) :
  Prim2SF c = S754_finite false mc ec -> abs (v / c) = abs v / c.
Proof.
  intros Hc. apply Prim2SF_inj.
  now rewrite FloatAxioms.abs_spec, !FloatAxioms.div_spec, FloatAxioms.abs_spec, Hc, SFabs_SFdiv.
Qed.

(** A negative number is at most [-c] exactly when its magnitude is at
    least [c]. *)
Lemma SFleb_opp_abs (x : spec_float) (mc : positive) (ec : Z) :
  SFltb x (S754_zero false) = true ->
  SFleb x (S754_finite true mc ec) = SFleb (S754_finite false mc ec) (SFabs x).
Proof.
  destruct x as [sx | sx | | sx mx ex]; try discriminate;
    destruct sx; try discriminate; intros _; try reflexivity.
  unfold SFleb, SFcompare, SFabs.
  rewrite (Z.compare_antisym ec ex).
  destruct (ec ?= ex)%Z; cbn [CompOpp]; try reflexivity.
  now rewrite (Pos.compare_cont_antisym mx mc Eq).
Qed.

(** No text that [Number::toString] produces begins with a plus sign. *)
Lemma starts_with_plus_app (a b : string) :
  starts_with_plus a = false -> starts_with_plus b = false ->
  starts_with_plus (a ++ b) = false.
Proof. destruct a; simpl; auto. Qed.

Lemma digits_no_plus (z : Z) : starts_with_plus (JS.digits z) = false.
Proof.
  unfold JS.digits, NilZero.string_of_uint.
  destruct (N.to_uint (Z.to_N z)); reflexivity.
Qed.

Lemma zeros_no_plus (n : nat) : starts_with_plus (JS.zeros n) = false.
Proof. destruct n; reflexivity. Qed.

Lemma prefix_no_plus (n : nat) (s : string) :
  starts_with_plus s = false -> starts_with_plus (substring 0 n s) = false.
Proof. destruct n, s; simpl; auto. Qed.

Create HintDb no_plus.

#[local] Hint Resolve starts_with_plus_app digits_no_plus zeros_no_plus prefix_no_plus
  : no_plus.

Lemma format_digits_no_plus (s k n : Z) :
  starts_with_plus (JS.format_digits s k n) = false.
Proof.
  unfold JS.format_digits.
  repeat match goal with
         | |- context [if ?c then _ else _] => destruct c
         end; auto 6 with no_plus.
Qed.

Lemma toString_no_plus (x : float) : starts_with_plus (JS.toString x) = false.
Proof.
  unfold JS.toString.
  destruct (Prim2SF x) as [s | s | | s m e]; try (destruct s; reflexivity); try reflexivity.
  destruct (JS.shortest_digits m e) as [[d k] n].
  destruct s; [reflexivity | apply format_digits_no_plus].
Qed.

Lemma Prim2SF_zero : Prim2SF 0 = S754_zero false.
Proof. reflexivity. Qed.

(** What the tests of [prettyLabel] answer on a negative number. *)
Lemma negative_tests (v : float) :
  (v <? 0) = true ->
  (v =? 0) = false /\ (0 <=? v) = false
  /\ (abs v =? 0) = false /\ (0 <=? abs v) = true.
Proof.
  rewrite FloatAxioms.ltb_spec, FloatAxioms.eqb_spec, !FloatAxioms.leb_spec, FloatAxioms.eqb_spec, FloatAxioms.abs_spec, Prim2SF_zero.
  destruct (Prim2SF v) as [s | s | | s m e]; try discriminate;
    destruct s; try discriminate; intros _; repeat apply conj; reflexivity.
Qed.

Lemma negative_against_constant (v c nc : float) (mc : positive) (ec : Z) :
  (v <? 0) = true ->
  Prim2SF c = S754_finite false mc ec ->
  Prim2SF nc = S754_finite true mc ec ->
  (c <=? v) = false /\ (abs v <=? nc) = false /\ (v <=? nc) = (c <=? abs v).
Proof.
  intros Hv Hc Hnc.
  rewrite FloatAxioms.ltb_spec, Prim2SF_zero in Hv.
  rewrite !FloatAxioms.leb_spec, FloatAxioms.abs_spec, Hc, Hnc.
  split; [| split].
  - destruct (Prim2SF v) as [s | s | | s m e]; try discriminate;
      destruct s; try discriminate; reflexivity.
  - destruct (Prim2SF v) as [s | s | | s m e]; try discriminate; reflexivity.
  - now apply SFleb_opp_abs.
Qed.

(** What the tests of [prettyLabel] answer on a positive number. *)
Lemma positive_tests (v nc : float) (mc : positive) (ec : Z) :
  (0 <? v) = true ->
  Prim2SF nc = S754_finite true mc ec ->
  (v =? 0) = false /\ (0 <=? v) = true /\ (v <=? nc) = false.
Proof.
  intros Hv Hnc.
  rewrite FloatAxioms.ltb_spec, Prim2SF_zero in Hv.
  rewrite FloatAxioms.eqb_spec, !FloatAxioms.leb_spec, Prim2SF_zero, Hnc.
  destruct (Prim2SF v) as [s | s | | s m e]; try discriminate;
    destruct s; try discriminate; repeat apply conj; reflexivity.
Qed.

(** C8: the four labels of the specification; the minus sign is the glyph
    U+2212, not the hyphen; a negative number is rendered as that glyph
    followed by the label of its absolute value, with or without
    [withSign]; and a positive number is rendered as its label without
    sign, prefixed by "+" when [withSign] is true, and begins with "+"
    exactly then. *)
Theorem prettyLabel_signs :
  (prettyLabel (Num 2500000) false = "2.5M"%string
   /\ prettyLabel (Num (-2500)) false = (minus_sign ++ "2.5K")%string
   /\ prettyLabel (Num 0) false = "0"%string
   /\ prettyLabel (Num 5) true = "+5"%string)
  /\ (map nat_of_ascii (list_ascii_of_string minus_sign) = [226; 136; 146]%nat
      /\ minus_sign <> "-"%string)
  /\ (forall (v : float) (withSign : bool),
         (v <? 0) = true ->
         prettyLabel (Num v) withSign
         = (minus_sign ++ prettyLabel (Num (JS.Math_abs v)) false)%string)
  /\ (forall (v : float) (withSign : bool),
         (0 <? v) = true ->
         prettyLabel (Num v) withSign
         = ((if withSign then "+" else EmptyString) ++ prettyLabel (Num v) false)%string
         /\ starts_with_plus (prettyLabel (Num v) withSign) = withSign).
Proof.
  split; [| split; [| split]].
  - repeat apply conj; vm_compute; reflexivity.
  - split; [vm_compute; reflexivity | discriminate].
  - intros v withSign Hv. unfold JS.Math_abs.
    destruct (negative_tests v Hv) as (E0 & Ege & Ea0 & Eage).
    destruct (negative_against_constant v 1000000 (-1000000) _ _ Hv eq_refl eq_refl)
      as (EM & EaM & EqM).
    destruct (negative_against_constant v 1000 (-1000) _ _ Hv eq_refl eq_refl)
      as (EK & EaK & EqK).
    unfold prettyLabel, JS.Math_abs.
    rewrite E0, EM, EK, Ege, Ea0, <- EqM, <- EqK, EaM, EaK, Eage.
    rewrite (abs_div_pos v 1000000 _ _ eq_refl), (abs_div_pos v 1000 _ _ eq_refl).
    destruct (v <=? -1000000); [reflexivity |].
    destruct (v <=? -1000); reflexivity.
  - intros v withSign Hv.
    destruct (positive_tests v (-1000000) _ _ Hv eq_refl) as (E0 & Ege & EM).
    destruct (positive_tests v (-1000) _ _ Hv eq_refl) as (_ & _ & EK).
    unfold prettyLabel. rewrite E0, EM, EK, Ege.
    destruct withSign;
      (destruct (1000000 <=? v); [| destruct (1000 <=? v)]);
      (split; [reflexivity |]); try reflexivity;
      cbn [append]; auto using starts_with_plus_app, toString_no_plus.
Qed.

(** The two general rules of [prettyLabel] at -2500 and at 5. *)
Lemma prettyLabel_signs_witness :
  prettyLabel (Num (-2500)) true = (minus_sign ++ prettyLabel (Num 2500) false)%string
  /\ (prettyLabel (Num 5) true = ("+" ++ prettyLabel (Num 5) false)%string
      /\ starts_with_plus (prettyLabel (Num 5) true) = true).
Proof.
  destruct prettyLabel_signs as (_ & _ & Hneg & Hpos).
  split.
  - apply (Hneg (-2500) true). reflexivity.
  - apply (Hpos 5 true). reflexivity.
Defined.

(** ** Halving

    Multiplying by 0.5 and dividing by 2 round the same real number: the
    two operations agree on every float. *)

#[local] Open Scope Z_scope.

Lemma fexp64 (k : Z) : fexp prec emax k = Z.max (k - 53) (-1074).
Proof. reflexivity. Qed.

Lemma shr_fexp_by (m e : Z) (l : location) (n : Z) :
  fexp prec emax (Zdigits2 m + e) - e = n ->
  shr_fexp prec emax m e l = shr (shr_record_of_loc m l) e n.
Proof. intros <-. reflexivity. Qed.

(** The mantissa and exponent of a valid finite float. *)
Lemma bounded64 (m : positive) (e : Z) :
  bounded prec emax m e = true ->
  Z.max (Z.pos (digits2_pos m) + e - 53) (-1074) = e /\ e <= 971.
Proof.
  unfold bounded, canonical_mantissa. rewrite fexp64.
  intros H. apply andb_true_iff in H. destruct H as [H1 H2].
  apply Z.eqb_eq in H1. apply Z.leb_le in H2. split; [exact H1 | exact H2].
Qed.

(** Rounding leaves a mantissa and exponent of the format as they are. *)
Lemma binary_round_aux_exact (s : bool) (m : positive) (e : Z) :
  Z.max (Z.pos (digits2_pos m) + e - 53) (-1074) = e -> e <= 971 ->
  binary_round_aux prec emax s (Z.pos m) e loc_Exact = S754_finite s m e.
Proof.
  intros Hc He. unfold binary_round_aux.
  rewrite (shr_fexp_by (Z.pos m) e loc_Exact 0)
    by (rewrite fexp64; cbn [Zdigits2]; lia).
  cbn [shr shr_record_of_loc shr_m loc_of_shr_record round_nearest_even].
  rewrite (shr_fexp_by (Z.pos m) e loc_Exact 0)
    by (rewrite fexp64; cbn [Zdigits2]; lia).
  cbn [shr shr_record_of_loc shr_m].
  replace (e <=? emax - prec) with true by (symmetry; apply Z.leb_le; cbn; lia).
  reflexivity.
Qed.

(** Rounding depends on its first shift only through the result of it. *)
Lemma binary_round_aux_stage (s : bool) (m1 e1 : Z) (l1 : location) (m2 e2 : Z) (l2 : location) :
  shr_fexp prec emax m1 e1 l1 = shr_fexp prec emax m2 e2 l2 ->
  binary_round_aux prec emax s m1 e1 l1 = binary_round_aux prec emax s m2 e2 l2.
Proof. unfold binary_round_aux. now intros ->. Qed.

Lemma div_core_two (m : positive) (e e' : Z) (sh : positive) (q r : Z) :
  Z.min (Z.max (Z.pos (digits2_pos m) + e - 2 - 53) (-1074)) (e + 51) = e' ->
  e + 51 - e' = Z.pos sh ->
  Z.pos m * 2 ^ Z.pos sh = Z.pos two52 * q + r ->
  0 <= r < Z.pos two52 ->
  SFdiv_core_binary prec emax (Z.pos m) e (Z.pos two52) (-51)
  = (q, e', new_location (Z.pos two52) r).
Proof.
  intros He' Hsh Hqr Hr.
  unfold SFdiv_core_binary. rewrite fexp64. cbn [Zdigits2].
  change (Z.pos (digits2_pos two52)) with 53.
  replace (Z.pos (digits2_pos m) + e - (53 + -51) - 53)
    with (Z.pos (digits2_pos m) + e - 2 - 53) by lia.
  replace (e - -51) with (e + 51) by lia.
  rewrite He', Hsh. rewrite Z.shiftl_mul_pow2 by lia.
  pose proof (Z.div_eucl_eq (Z.pos m * 2 ^ Z.pos sh) (Z.pos two52) ltac:(discriminate)) as Heq.
  pose proof (Z.mod_pos_bound (Z.pos m * 2 ^ Z.pos sh) (Z.pos two52) ltac:(reflexivity)) as Hb.
  unfold Z.modulo in Hb.
  destruct (Z.div_eucl (Z.pos m * 2 ^ Z.pos sh) (Z.pos two52)) as [q' r'].
  assert (q' = q /\ r' = r) as [-> ->]; [| reflexivity].
  rewrite Hqr in Heq. clear Hqr.
  assert (Hq : q' = q) by nia. subst q'. split; [reflexivity | lia].
Qed.

Lemma digits_two52_mul (m : positive) :
  Z.pos (digits2_pos (two52 * m)) = Z.pos (digits2_pos m) + 52.
Proof. unfold two52. cbn [Pos.mul digits2_pos]. lia. Qed.

Lemma stage_mul_by_52 (m : positive) (e : Z) :
  shr (shr_record_of_loc (Z.pos (two52 * m)) loc_Exact) (-53 + e) 52
  = (Build_shr_record (Z.pos m) false false, e - 1).
Proof.
  unfold two52. cbn [Pos.mul shr shr_record_of_loc].
  cbv [iter_pos shr_1 orb]. f_equal. lia.
Qed.

Lemma stage_mul_by_53 (m : positive) (e : Z) :
  shr (shr_record_of_loc (Z.pos (two52 * m)) loc_Exact) (-53 + e) 53
  = (shr_1 (Build_shr_record (Z.pos m) false false), e).
Proof.
  unfold two52. cbn [Pos.mul shr shr_record_of_loc].
  cbv [iter_pos shr_1 orb]. f_equal. lia.
Qed.

Lemma SFmul_half_SFdiv_two (x : spec_float) :
  valid_binary x = true ->
  SFmul prec emax (S754_finite false two52 (-53)) x
  = SFdiv prec emax x (S754_finite false two52 (-51)).
Proof.
  destruct x as [s | s | | s m e]; try reflexivity;
    try (intros _; now destruct s).
  intros Hv. apply bounded64 in Hv. destruct Hv as [Hc He].
  cbn [SFmul SFdiv xorb]. rewrite xorb_false_r.
  assert (Hcase : e = -1074 \/ e = -1073 \/ -1072 <= e) by lia.
  destruct Hcase as [-> | [-> | Hn]].
  - (* the lowest exponent: the last bit of the mantissa is rounded away *)
    assert (Hd : Z.pos (digits2_pos m) <= 53) by lia.
    destruct m as [p | p |].
    + rewrite (div_core_two p~1 (-1074) (-1074) 51 (Z.pos p) (2 ^ 51));
        [| cbn [digits2_pos] in *; lia | lia | unfold two52; lia | unfold two52; lia].
      apply binary_round_aux_stage.
      rewrite (shr_fexp_by _ _ _ 53)
        by (rewrite fexp64; cbn [Zdigits2]; rewrite digits_two52_mul; lia).
      rewrite stage_mul_by_53.
      rewrite (shr_fexp_by (Z.pos p) _ _ 0)
        by (rewrite fexp64; cbn [Zdigits2 digits2_pos] in *; lia).
      reflexivity.
    + rewrite (div_core_two p~0 (-1074) (-1074) 51 (Z.pos p) 0);
        [| cbn [digits2_pos] in *; lia | lia | unfold two52; lia | unfold two52; lia].
      apply binary_round_aux_stage.
      rewrite (shr_fexp_by _ _ _ 53)
        by (rewrite fexp64; cbn [Zdigits2]; rewrite digits_two52_mul; lia).
      rewrite stage_mul_by_53.
      rewrite (shr_fexp_by (Z.pos p) _ _ 0)
        by (rewrite fexp64; cbn [Zdigits2 digits2_pos] in *; lia).
      reflexivity.
    + rewrite (div_core_two 1 (-1074) (-1074) 51 0 (2 ^ 51));
        [| reflexivity | lia | reflexivity | unfold two52; lia].
      apply binary_round_aux_stage. reflexivity.
  - assert (Hd : Z.pos (digits2_pos m) = 53) by lia.
    rewrite (div_core_two m (-1073) (-1074) 52 (Z.pos m) 0);
      [| lia | lia | unfold two52; lia | unfold two52; lia].
    apply binary_round_aux_stage.
    rewrite (shr_fexp_by _ _ _ 52)
      by (rewrite fexp64; cbn [Zdigits2]; rewrite digits_two52_mul; lia).
    rewrite stage_mul_by_52.
    rewrite (shr_fexp_by (Z.pos m) _ _ 0) by (rewrite fexp64; cbn [Zdigits2]; lia).
    reflexivity.
  - assert (Hd : Z.pos (digits2_pos m) = 53) by lia.
    rewrite (div_core_two m e (e - 2) 53 (Z.pos m~0) 0);
      [| lia | lia | unfold two52; lia | unfold two52; lia].
    apply binary_round_aux_stage.
    rewrite (shr_fexp_by _ _ _ 52)
      by (rewrite fexp64; cbn [Zdigits2]; rewrite digits_two52_mul; lia).
    rewrite stage_mul_by_52.
    rewrite (shr_fexp_by (Z.pos m~0) _ _ 1)
      by (rewrite fexp64; cbn [Zdigits2 digits2_pos]; lia).
    cbn [new_location]. cbv [shr shr_record_of_loc iter_pos shr_1 orb new_location
                               new_location_even Z.even two52 Z.eqb].
    f_equal. lia.
Qed.

#[local] Close Scope Z_scope.

Lemma mul_half_div_two (s : float) : 0.5 * s = s / 2.
Proof.
  apply Prim2SF_inj. rewrite FloatAxioms.mul_spec, FloatAxioms.div_spec.
  apply SFmul_half_SFdiv_two, Prim2SF_valid.
Qed.

(** ** The centres of the bins *)

(** C7, as the specification states it, fails in binary64 arithmetic. Over
    [[0, 1]] with 3 bins the last centre [0 + 2.5 * (1 / 3)] is
    [0.8333333333333333], while [1 - (1 / 3) / 2] is [0.8333333333333334].
    Over [[2^60, 2^60 + 256]] with 4 bins the step is 64, a quarter of the
    distance between neighbouring floats there: the first two centres are
    both [2^60], so the centres are not strictly increasing. *)
Lemma bin_centres_not_exact :
  (((0 <? 1) = true /\ (0 < 3)%nat)
   /\ nth (3 - 1) (centres (bin [] 0 1 3)) nan <> 1 - ((1 - 0) / JS.of_nat 3) / 2)
  /\ (((1152921504606846976 <? 1152921504606847232) = true /\ (0 < 4)%nat)
      /\ increasing (centres (bin [] 1152921504606846976 1152921504606847232 4)) = false).
Proof.
  split; split; try (split; [reflexivity | lia]).
  - apply float_neq. vm_compute. discriminate.
  - vm_compute. reflexivity.
Qed.

(** C7, amended: for every data, range and bucket count [n],
    [bin(data, min, max, n).centres] has length [n] and its element [i] is
    [min + (i + 0.5) * stepSize] as binary64 arithmetic evaluates it, with
    [stepSize = (max - min) / n]; so [centres[0]] is [min + stepSize / 2]
    and [centres[n-1]] is [min + (n - 1 + 0.5) * stepSize]. *)
Theorem bin_centres_formula (data : list float) (min max : float) (n : nat) :
  let stepSize := (max - min) / JS.of_nat n in
  let cs := centres (bin data min max n) in
  List.length cs = n
  /\ (forall i : nat, (i < n)%nat -> nth i cs nan = min + (JS.of_nat i + 0.5) * stepSize)
  /\ ((0 < n)%nat ->
      nth 0 cs nan = min + stepSize / 2
      /\ nth (n - 1) cs nan = min + (JS.of_nat (n - 1) + 0.5) * stepSize).
Proof.
  intros stepSize cs.
  assert (Hnth : forall i : nat, (i < n)%nat ->
            nth i cs nan = min + (JS.of_nat i + 0.5) * stepSize).
  { intros i Hi. subst cs. rewrite bin_centres. fold stepSize.
    set (f := fun i : nat => min + (JS.of_nat i + 0.5) * stepSize).
    rewrite (nth_indep _ nan (f O)) by now rewrite length_map, length_seq.
    now rewrite map_nth, seq_nth. }
  split; [| split].
  - subst cs. now rewrite bin_centres, length_map, length_seq.
  - exact Hnth.
  - intros Hn. split.
    + rewrite (Hnth O Hn). f_equal.
      change (JS.of_nat 0 + 0.5) with 0.5. apply mul_half_div_two.
    + apply Hnth. lia.
Qed.

(** The formula of the centres over [[0, 1]] with 3 bins. *)
Lemma bin_centres_formula_witness :
  nth 2 (centres (bin [] 0 1 3)) nan = 0 + (JS.of_nat 2 + 0.5) * ((1 - 0) / JS.of_nat 3)
  /\ nth 0 (centres (bin [] 0 1 3)) nan = 0 + ((1 - 0) / JS.of_nat 3) / 2.
Proof.
  destruct (bin_centres_formula [] 0 1 3) as (_ & Hnth & Hfirst).
  split.
  - apply (Hnth 2%nat). lia.
  - apply Hfirst. lia.
Defined.

(** ** The difference of a scenario with itself *)

(** A finite float is a zero or has a mantissa and an exponent. *)
Lemma is_finite_Prim2SF (x : float) :
  PrimFloat.is_finite x = true ->
  (exists s, Prim2SF x = S754_zero s) \/ (exists s m e, Prim2SF x = S754_finite s m e).
Proof.
  unfold PrimFloat.is_finite, Prim2SF. intros H.
  apply negb_true_iff, orb_false_iff in H. destruct H as [-> ->].
  destruct (PrimFloat.is_zero x); [left; eauto |].
  destruct (Z.frexp x) as [r ex].
  destruct (shr_fexp prec emax _ _ loc_Exact) as [shr e'].
  destruct (shr_m shr); [left | right | left]; eauto.
Qed.

(** A finite number minus itself is [+0]. *)
Lemma sub_diag_finite (x : float) : PrimFloat.is_finite x = true -> x - x = 0.
Proof.
  intros H. apply Prim2SF_inj. rewrite FloatAxioms.sub_spec, Prim2SF_zero.
  destruct (is_finite_Prim2SF x H) as [[s ->] | (s & m & e & ->)].
  - now destruct s.
  - unfold SF64sub, SFsub, shl_align.
    rewrite Z.min_id, Z.sub_diag. cbn [fst]. reflexivity.
Qed.

(** Against itself, every finite value of a scenario differs by [+0]. *)
Lemma differences_self_zero (before values : list float) :
  Forall (fun v => PrimFloat.is_finite v = true) values ->
  map (fun '(i, value) => value - nth i (before ++ values) nan)
    (combine (seq (List.length before) (List.length values)) values)
  = map (fun _ => 0) values.
Proof.
  intros Hfin. revert before.
  induction Hfin as [| v values Hv _ IH]; intros before; [reflexivity |].
  cbn [List.length seq combine map]. f_equal.
  - now rewrite nth_middle, sub_diag_finite.
  - specialize (IH (before ++ [v])%list).
    rewrite length_app, Nat.add_1_r, <- app_assoc in IH. exact IH.
Qed.

(** C2 in general: when every value of the indicator is finite, the
    differences of a scenario with itself are all dropped, and the bound of
    the range computed from none is [Infinity] (and the lower end
    [-Infinity]), not the floor 0.1. *)
Lemma difference_range_of_identical_scenarios
    (indicator : IndicatorName) (scenario : Scenario) :
  let values := getValues indicator scenario in
  Forall (fun v => PrimFloat.is_finite v = true) values ->
  differences values values = []
  /\ differenceMax (differences values values) = infinity
  /\ - differenceMax (differences values values) = neg_infinity.
Proof.
  intros values Hfin.
  assert (Hnone : differences values values = []).
  { unfold differences.
    pose proof (differences_self_zero [] values Hfin) as Hzero.
    cbn [app List.length] in Hzero. rewrite Hzero.
    clear Hfin Hzero. induction values as [| v values IH]; [reflexivity | exact IH]. }
  rewrite Hnone. repeat apply conj; reflexivity.
Qed.

(** ** Values that are not numbers *)

Lemma nan_sub (x : float) : nan - x = nan.
Proof. apply Prim2SF_inj. now rewrite FloatAxioms.sub_spec. Qed.

Lemma nan_div (x : float) : nan / x = nan.
Proof. apply Prim2SF_inj. now rewrite FloatAxioms.div_spec. Qed.

Lemma nan_eqb (x : float) : (nan =? x) = false.
Proof. now rewrite FloatAxioms.eqb_spec. Qed.

Lemma bin_step_nan (min max stepSize : float) (nsteps : nat) (cs : list float) :
  bin_step min max stepSize nsteps cs nan = cs.
Proof.
  unfold bin_step. now rewrite nan_eqb, nan_sub, nan_div.
Qed.

(** X2: a NaN among the data (an area without the indicator included)
    fails every test of [bin] and is left out of all counts: [bin] returns
    what it returns on the data without the NaNs. *)
Theorem bin_ignores_nan (data : list float) (min max : float) (nsteps : nat) :
  bin data min max nsteps = bin (filter (fun d => negb (is_nan d)) data) min max nsteps.
Proof.
  unfold bin. f_equal.
  generalize (repeat 0 nsteps) as cs.
  induction data as [| d data IH]; intros cs; [reflexivity |].
  cbn [filter fold_left].
  destruct (is_nan d) eqn:Hd; cbn [negb fold_left]; [| apply IH].
  assert (d = nan) as ->.
  { apply Prim2SF_inj. unfold Prim2SF at 1. now rewrite Hd. }
  rewrite bin_step_nan. apply IH.
Qed.

(** The mean of no value is NaN. *)
Lemma getMean_empty : getMean [] = nan.
Proof. reflexivity. Qed.

(** [prettyLabel] returns a string argument unchanged, and renders both
    zeros as "0", with or without [withSign]. *)
Lemma prettyLabel_string_and_zero (s : string) (withSign : bool) :
  prettyLabel (Str s) withSign = s
  /\ prettyLabel (Num 0) withSign = "0"%string
  /\ prettyLabel (Num (-0)) withSign = "0"%string.
Proof. repeat apply conj; reflexivity. Qed.

(** ** The floor of the difference range *)

(** Comparing in the other direction gives the opposite answer. *)
Lemma SFcompare_antisym (x y : spec_float) :
  SFcompare y x = option_map CompOpp (SFcompare x y).
Proof.
  destruct x as [sx | sx | | sx mx ex], y as [sy | sy | | sy my ey];
    try (destruct sx); try (destruct sy); try reflexivity;
    cbn [SFcompare option_map]; f_equal;
    rewrite (Z.compare_antisym ex ey);
    destruct (ex ?= ey)%Z; cbn [CompOpp]; try reflexivity;
    now rewrite (Pos.compare_cont_antisym mx my Eq).
Qed.

(** A float that is not NaN compares with every other one that is not. *)
Lemma is_nan_Prim2SF (x : float) : is_nan x = false -> Prim2SF x <> S754_nan.
Proof.
  unfold Prim2SF. intros ->.
  destruct (PrimFloat.is_zero x); [discriminate |].
  destruct (is_infinity x); [discriminate |].
  destruct (Z.frexp x) as [r ex].
  destruct (shr_fexp prec emax _ _ loc_Exact) as [shr e'].
  destruct (shr_m shr); discriminate.
Qed.

Lemma leb_total (a c : float) :
  is_nan a = false -> is_nan c = false ->
  (a <? c) = false -> (c <=? a) = true.
Proof.
  intros Ha Hc. apply is_nan_Prim2SF in Ha, Hc.
  rewrite FloatAxioms.ltb_spec, FloatAxioms.leb_spec.
  unfold SFltb, SFleb. rewrite (SFcompare_antisym (Prim2SF a) (Prim2SF c)).
  destruct (Prim2SF a) as [sa | sa | | sa ma ea]; try contradiction;
    destruct (Prim2SF c) as [sc | sc | | sc mc ec]; try contradiction;
    (destruct (SFcompare _ _) as [[| |] |] eqn:E;
     cbn [option_map CompOpp]; try reflexivity; try discriminate;
     exfalso; revert E; cbn;
     repeat match goal with s : bool |- _ => destruct s end; discriminate).
Qed.

Lemma max2_at_least (a c : float) :
  is_nan c = false ->
  is_nan (JS.max2 a c) = true \/ (c <=? JS.max2 a c) = true.
Proof.
  intros Hc. unfold JS.max2.
  destruct (is_nan a) eqn:Ha; [now left |]. rewrite Hc. right.
  assert (Hrefl : (c <=? c) = true).
  { apply leb_total; auto.
    rewrite FloatAxioms.ltb_spec. unfold SFltb.
    pose proof (SFcompare_antisym (Prim2SF c) (Prim2SF c)) as E.
    destruct (SFcompare (Prim2SF c) (Prim2SF c)) as [[| |] |]; try reflexivity;
      discriminate. }
  destruct (a <? c) eqn:Hac; [exact Hrefl |].
  destruct (c <? a) eqn:Hca.
  - now apply leb_total.
  - destruct (get_sign a); [exact Hrefl | now apply leb_total].
Qed.

(** X5: the bound of the difference range is never below the floor: it is
    NaN (when a difference is NaN) or at least 0.1. *)
Theorem differenceMax_at_least_floor (rawValues : list float) :
  is_nan (differenceMax rawValues) = true \/ (0.1 <=? differenceMax rawValues) = true.
Proof.
  unfold differenceMax, JS.Math_max. cbn [fold_left].
  now apply max2_at_least.
Qed.

(** ** NaN in arithmetic *)

Lemma is_nan_eq (x : float) : is_nan x = true -> x = nan.
Proof.
  intros H. apply Prim2SF_inj. unfold Prim2SF at 1. now rewrite H.
Qed.

Lemma sub_nan (x : float) : x - nan = nan.
Proof.
  apply Prim2SF_inj. rewrite FloatAxioms.sub_spec.
  now destruct (Prim2SF x).
Qed.

Lemma div_nan (x : float) : x / nan = nan.
Proof.
  apply Prim2SF_inj. rewrite FloatAxioms.div_spec.
  now destruct (Prim2SF x).
Qed.

Lemma mul_nan (x : float) : x * nan = nan.
Proof.
  apply Prim2SF_inj. rewrite FloatAxioms.mul_spec.
  now destruct (Prim2SF x).
Qed.

Lemma nan_add (x : float) : nan + x = nan.
Proof. apply Prim2SF_inj. now rewrite FloatAxioms.add_spec. Qed.

Lemma add_nan (x : float) : x + nan = nan.
Proof.
  apply Prim2SF_inj. rewrite FloatAxioms.add_spec.
  now destruct (Prim2SF x).
Qed.

Lemma eqb_nan (x : float) : (x =? nan) = false.
Proof.
  rewrite FloatAxioms.eqb_spec. now destruct (Prim2SF x).
Qed.

(** ** The mean *)

Lemma sum_from_nan (xs : list float) : fold_left (fun a b => a + b) xs nan = nan.
Proof.
  induction xs as [| x xs IH]; [reflexivity |].
  cbn [fold_left]. now rewrite nan_add.
Qed.

Lemma sum_with_nan (xs : list float) (a : float) :
  existsb is_nan xs = true -> fold_left (fun a b => a + b) xs a = nan.
Proof.
  revert a. induction xs as [| x xs IH]; intros a H; [discriminate |].
  cbn [existsb fold_left] in *.
  destruct (is_nan x) eqn:Hx.
  - apply is_nan_eq in Hx. subst x. rewrite add_nan. apply sum_from_nan.
  - now apply IH.
Qed.

(** X3: the mean of no value, and the mean of values one of which is NaN
    (an area without the indicator), is NaN; its two-decimal rendering in
    the label of the mean marker is "NaN". *)
Theorem getMean_nan (data : list float) :
  data = [] \/ existsb is_nan data = true ->
  getMean data = nan /\ JS.toFixed (getMean data) 2 = "NaN"%string.
Proof.
  intros H.
  assert (Hmean : getMean data = nan).
  { destruct H as [-> | H]; [reflexivity |].
    unfold getMean. rewrite (sum_with_nan data 0 H). apply nan_div. }
  now rewrite Hmean.
Qed.

(** The mean of the values 1, NaN and 3. *)
Lemma getMean_nan_witness : getMean [1; nan; 3] = nan.
Proof. apply (getMean_nan [1; nan; 3]). right. reflexivity. Defined.

(** ** A difference that is not a number *)

Lemma Math_max_from_nan (xs : list float) : fold_left JS.max2 xs nan = nan.
Proof. induction xs as [| x xs IH]; [reflexivity | exact IH]. Qed.

Lemma Math_min_from_nan (xs : list float) : fold_left JS.min2 xs nan = nan.
Proof. induction xs as [| x xs IH]; [reflexivity | exact IH]. Qed.

Lemma Math_max_with_nan (xs : list float) (a : float) :
  existsb is_nan xs = true -> fold_left JS.max2 xs a = nan.
Proof.
  revert a. induction xs as [| x xs IH]; intros a H; [discriminate |].
  cbn [existsb fold_left] in *.
  destruct (is_nan x) eqn:Hx; [| now apply IH].
  replace (JS.max2 a x) with nan; [apply Math_max_from_nan |].
  unfold JS.max2. rewrite Hx.
  destruct (is_nan a) eqn:Ha; [now apply is_nan_eq in Ha | now apply is_nan_eq in Hx].
Qed.

Lemma Math_min_with_nan (xs : list float) (a : float) :
  existsb is_nan xs = true -> fold_left JS.min2 xs a = nan.
Proof.
  revert a. induction xs as [| x xs IH]; intros a H; [discriminate |].
  cbn [existsb fold_left] in *.
  destruct (is_nan x) eqn:Hx; [| now apply IH].
  replace (JS.min2 a x) with nan; [apply Math_min_from_nan |].
  unfold JS.min2. rewrite Hx.
  destruct (is_nan a) eqn:Ha; [now apply is_nan_eq in Ha | now apply is_nan_eq in Hx].
Qed.

Lemma differenceMax_with_nan (rawValues : list float) :
  existsb is_nan rawValues = true -> differenceMax rawValues = nan.
Proof.
  intros H. unfold differenceMax, JS.Math_min, JS.Math_max at 2.
  now rewrite (Math_min_with_nan _ _ H), (Math_max_with_nan _ _ H).
Qed.

(** Over the range from NaN to NaN no value is counted. *)
Lemma bin_step_nan_range (nsteps : nat) (cs : list float) (d : float) :
  bin_step nan nan nan nsteps cs d = cs.
Proof.
  unfold bin_step. now rewrite eqb_nan, sub_nan, nan_div.
Qed.

Lemma bin_nan_range (data : list float) (nsteps : nat) :
  bin data nan nan nsteps = {| counts := repeat 0 nsteps; centres := repeat nan nsteps |}.
Proof.
  unfold bin. rewrite nan_sub, nan_div. f_equal.
  - generalize (repeat 0 nsteps) as cs.
    induction data as [| d data IH]; intros cs; [reflexivity |].
    cbn [fold_left]. rewrite bin_step_nan_range. apply IH.
  - generalize 0%nat as start.
    induction nsteps as [| n IH]; intros start; [reflexivity |].
    cbn [seq map repeat]. now rewrite mul_nan, nan_add, IH.
Qed.

(** An index and the element it holds are paired by [combine]. *)
Lemma In_combine_seq (xs : list float) (start i : nat) :
  (i < List.length xs)%nat ->
  In ((start + i)%nat, nth i xs nan) (combine (seq start (List.length xs)) xs).
Proof.
  revert start i. induction xs as [| x xs IH]; intros start i Hi; [inversion Hi |].
  cbn [List.length seq combine]. destruct i as [| i].
  - left. now rewrite Nat.add_0_r.
  - right. rewrite <- Nat.add_succ_comm. apply IH. simpl in Hi. lia.
Qed.

(** When the comparison scenario has fewer areas, the difference at the
    first area it lacks is NaN, and is retained. *)
Lemma differences_short (scenValues cmpScenValues : list float) :
  (List.length cmpScenValues < List.length scenValues)%nat ->
  existsb is_nan (differences scenValues cmpScenValues) = true.
Proof.
  intros Hlen. apply existsb_exists. exists nan. split; [| reflexivity].
  unfold differences. apply filter_In. split; [| reflexivity].
  apply in_map_iff.
  exists (List.length cmpScenValues, nth (List.length cmpScenValues) scenValues nan).
  split.
  - cbn beta iota. rewrite (nth_overflow cmpScenValues) by lia. apply sub_nan.
  - apply (In_combine_seq scenValues 0 (List.length cmpScenValues) Hlen).
Qed.

(** X6: in difference mode, when a retained difference is NaN (an area
    without the indicator in one scenario), and in particular when the
    comparison scenario has fewer areas than the primary one, nothing is
    drawn: every count is 0, every label is NaN and the tick step is
    NaN, whatever the colormap and the platform are. *)
Theorem difference_with_nan_is_empty
    (Math_log10 : float -> float) (Math_pow : float -> float -> float)
    (makeColormap : string -> nat -> list string)
    (indicator : IndicatorName) (scenario compareScenario : Scenario) (nbars : nat) :
  let rawValues :=
    differences (getValues indicator scenario) (getValues indicator compareScenario) in
  let payload :=
    makeChartDataDifference Math_log10 Math_pow makeColormap
      indicator scenario compareScenario nbars in
  existsb is_nan rawValues = true
  \/ (List.length (values compareScenario) < List.length (values scenario))%nat ->
  labels payload = repeat nan nbars
  /\ map ChartDataset.data (datasets payload) = [ChartDataset.Numbers (repeat 0 nbars)]
  /\ tickStepSize payload = nan.
Proof.
  intros rawValues payload H.
  assert (Hnan : existsb is_nan rawValues = true).
  { destruct H as [H | H]; [exact H |].
    apply differences_short. unfold getValues. now rewrite !length_map. }
  subst payload. unfold makeChartDataDifference. fold rawValues.
  cbn [labels datasets tickStepSize map ChartDataset.data].
  rewrite (differenceMax_with_nan rawValues Hnan).
  change (- nan) with nan. rewrite bin_nan_range. cbn [counts centres].
  repeat apply conj; reflexivity.
Qed.

(** Scenario A against a scenario that lacks its second area. *)
Lemma difference_with_nan_is_empty_witness :
  labels (makeChartDataDifference Reference.log10 Reference.pow Reference.makeColormap
            Reference.indicator Reference.scenarioA Reference.scenarioShort 3)
  = [nan; nan; nan].
Proof.
  apply (difference_with_nan_is_empty Reference.log10 Reference.pow Reference.makeColormap
           Reference.indicator Reference.scenarioA Reference.scenarioShort 3).
  right. cbn. lia.
Defined.

(** ** The order of the data *)

Lemma incr_comm (i j : nat) (cs : list float) :
  incr i (incr j cs) = incr j (incr i cs).
Proof.
  revert i j. induction cs as [| c cs IH]; intros [| i] [| j]; simpl; try reflexivity.
  now rewrite IH.
Qed.

(** One turn of the loop is the increments of its value, one by one. *)
Lemma bin_step_increments (min max stepSize : float) (nsteps : nat)
    (cs : list float) (d : float) :
  bin_step min max stepSize nsteps cs d
  = fold_left (fun cs i => incr i cs) (increments min max stepSize nsteps d) cs.
Proof.
  unfold bin_step, increments. rewrite fold_left_app.
  destruct (d =? max), nsteps, ((0 <=? _) && _)%bool; reflexivity.
Qed.

Lemma bin_counts_increments (data : list float) (min max : float) (nsteps : nat) :
  counts (bin data min max nsteps)
  = fold_left (fun cs i => incr i cs)
      (flat_map (increments min max ((max - min) / JS.of_nat nsteps) nsteps) data)
      (repeat 0 nsteps).
Proof.
  unfold bin. cbn [counts]. generalize (repeat 0 nsteps) as cs.
  induction data as [| d data IH]; intros cs; [reflexivity |].
  cbn [fold_left flat_map]. now rewrite fold_left_app, IH, bin_step_increments.
Qed.

Lemma fold_incr_permutation (is1 is2 : list nat) :
  Permutation is1 is2 ->
  forall cs : list float,
    fold_left (fun cs i => incr i cs) is1 cs = fold_left (fun cs i => incr i cs) is2 cs.
Proof.
  induction 1 as [| i is1 is2 _ IH | i j is1 | is1 is2 is3 _ IH1 _ IH2]; intros cs.
  - reflexivity.
  - apply IH.
  - cbn [fold_left]. now rewrite incr_comm.
  - now rewrite IH1.
Qed.

(** X7: the bins do not depend on the order of the data: [bin] returns the
    same counts and centres on every rearrangement of the values. *)
Theorem bin_permutation (data data' : list float) (min max : float) (nsteps : nat) :
  Permutation data data' -> bin data min max nsteps = bin data' min max nsteps.
Proof.
  intros Hperm.
  assert (Hcounts : counts (bin data min max nsteps) = counts (bin data' min max nsteps)).
  { rewrite !bin_counts_increments.
    apply fold_incr_permutation, Permutation_flat_map, Hperm. }
  unfold bin in *. cbn [counts] in Hcounts. now rewrite Hcounts.
Qed.

(** The values 1, 2, 3 in two orders. *)
Lemma bin_permutation_witness : bin [1; 2; 3] 0 4 2 = bin [3; 1; 2] 0 4 2.
Proof.
  apply (bin_permutation [1; 2; 3] [3; 1; 2] 0 4 2).
  apply Permutation_sym, (Permutation_cons_append [1; 2] 3).
Defined.

(** ** A step of zero *)

Lemma eqb_zero_Prim2SF (s : float) :
  (s =? 0) = true -> exists sign, Prim2SF s = S754_zero sign.
Proof.
  rewrite FloatAxioms.eqb_spec, Prim2SF_zero.
  destruct (Prim2SF s) as [sign | sign | | sign m e];
    try destruct sign; try discriminate; eauto.
Qed.

(** Dividing by zero gives NaN or an infinity, and neither is an index. *)
Lemma div_zero_no_index (t s limit : float) :
  (s =? 0) = true ->
  let bin := JS.Math_floor (t / s) in
  (0 <=? bin) && (bin <? limit) = false.
Proof.
  intros Hs. destruct (eqb_zero_Prim2SF s Hs) as [sign Hzero].
  assert (Hq : Prim2SF (t / s) = S754_nan
               \/ exists sq, Prim2SF (t / s) = S754_infinity sq).
  { rewrite FloatAxioms.div_spec, Hzero.
    destruct (Prim2SF t) as [st | st | | st mt et]; cbn; eauto. }
  cbv zeta. unfold JS.Math_floor.
  rewrite FloatAxioms.leb_spec, FloatAxioms.ltb_spec, Prim2SF_zero.
  destruct Hq as [Hq | [sq Hq]]; rewrite Hq; rewrite ?Hq; [reflexivity |].
  destruct sq; [reflexivity |].
  cbn. now destruct (Prim2SF limit) as [sl | sl | | sl ml el]; try destruct sl.
Qed.

Lemma bin_step_zero_step (min max stepSize : float) (last : nat)
    (cs : list float) (d : float) :
  (stepSize =? 0) = true ->
  bin_step min max stepSize (S last) cs d = if d =? max then incr last cs else cs.
Proof.
  intros Hs. unfold bin_step.
  now rewrite (div_zero_no_index (d - min) stepSize (JS.of_nat (S last)) Hs).
Qed.

Lemma incr_last (n : nat) (c : float) :
  incr n (repeat 0 n ++ [c]) = (repeat 0 n ++ [c + 1])%list.
Proof. induction n as [| n IH]; [reflexivity |]. cbn. now rewrite IH. Qed.

(** X8: when the step is zero (the range has no width, or is so narrow
    that the step underflows), no value gets an index: every bin but the
    last stays empty, and the last bin counts the values equal to [max],
    once each. *)
Theorem bin_zero_step (data : list float) (min max : float) (last : nat) :
  ((max - min) / JS.of_nat (S last) =? 0) = true ->
  counts (bin data min max (S last))
  = (repeat 0 last
       ++ [count_of (List.length (filter (fun d => d =? max) data))])%list.
Proof.
  intros Hs. unfold bin. cbn [counts].
  change (repeat 0 (S last)) with (0 :: repeat 0 last). rewrite repeat_cons.
  set (step := bin_step min max ((max - min) / JS.of_nat (S last)) (S last)).
  set (equal_max := fun d => d =? max).
  assert (Hfrom : forall k : nat,
             fold_left step data (repeat 0 last ++ [count_of k])%list
             = (repeat 0 last ++ [count_of (k + List.length (filter equal_max data))])%list).
  { induction data as [| d data IH]; intros k.
    - cbn. now rewrite Nat.add_0_r.
    - cbn [fold_left filter]. subst step equal_max.
      rewrite (bin_step_zero_step _ _ _ _ _ _ Hs). cbn beta.
      destruct (d =? max).
      + rewrite incr_last. cbn [List.length]. rewrite <- Nat.add_succ_comm.
        apply (IH (S k)).
      + apply IH. }
  apply (Hfrom 0%nat).
Qed.

(** The range from 5 to 5 with 3 bins. *)
Lemma bin_zero_step_witness :
  counts (bin [5; 4; 5; 7] 5 5 3) = [0; 0; count_of 2].
Proof.
  apply (bin_zero_step [5; 4; 5; 7] 5 5 2). reflexivity.
Defined.

(** ** The first character of a label *)

Section FirstChar.

Variable c : ascii.
Hypothesis Hc : forallb (fun a => negb (Ascii.eqb c a)) number_chars = true.

Lemma not_number_char (a : ascii) : In a number_chars -> Ascii.eqb c a = false.
Proof.
  intros Ha. rewrite forallb_forall in Hc. apply Hc in Ha.
  now apply negb_true_iff in Ha.
Qed.

Ltac number_char := apply not_number_char; cbn; tauto.

Lemma first_char_app (a b : string) :
  first_char_is c a = false -> first_char_is c b = false ->
  first_char_is c (a ++ b) = false.
Proof. destruct a; simpl; auto. Qed.

Lemma first_char_digits (z : Z) : first_char_is c (JS.digits z) = false.
Proof.
  unfold JS.digits, NilZero.string_of_uint.
  destruct (N.to_uint (Z.to_N z)); cbn; number_char.
Qed.

Lemma first_char_zeros (n : nat) : first_char_is c (JS.zeros n) = false.
Proof. destruct n; [reflexivity | cbn; number_char]. Qed.

Lemma first_char_prefix (n : nat) (s : string) :
  first_char_is c s = false -> first_char_is c (substring 0 n s) = false.
Proof. destruct n, s; simpl; auto. Qed.

Lemma first_char_format_digits (s k n : Z) :
  first_char_is c (JS.format_digits s k n) = false.
Proof.
  unfold JS.format_digits.
  repeat match goal with
         | |- context [if ?b then _ else _] => destruct b
         end;
    repeat first
      [ progress cbn; number_char
      | apply first_char_digits
      | apply first_char_zeros
      | apply first_char_prefix
      | apply first_char_app ].
Qed.

(** The text of a number that is not negative begins with none of the
    excluded characters. *)
Lemma first_char_toString (x : float) :
  negative_signed x = false -> first_char_is c (JS.toString x) = false.
Proof.
  unfold negative_signed, JS.toString.
  destruct (Prim2SF x) as [s | s | | s m e]; try destruct s; try discriminate;
    intros _; try (cbn; number_char).
  destruct (JS.shortest_digits m e) as [[d k] n]. cbn [append].
  apply first_char_format_digits.
Qed.

End FirstChar.

(** ** The sign of a label *)

Lemma binary_round_aux_unsigned (m e : Z) (l : location) :
  match binary_round_aux prec emax false m e l with
  | S754_infinity true | S754_finite true _ _ => false
  | _ => true
  end = true.
Proof.
  unfold binary_round_aux.
  destruct (shr_fexp prec emax m e l) as [mrs' e'].
  destruct (shr_fexp prec emax _ e' loc_Exact) as [mrs'' e''].
  destruct (shr_m mrs''); try reflexivity.
  destruct (e'' <=? emax - prec)%Z; reflexivity.
Qed.

Lemma positive_Prim2SF (v : float) :
  (0 <? v) = true ->
  Prim2SF v = S754_infinity false \/ exists m e, Prim2SF v = S754_finite false m e.
Proof.
  rewrite FloatAxioms.ltb_spec, Prim2SF_zero.
  destruct (Prim2SF v) as [s | s | | s m e]; try destruct s; try discriminate; eauto.
Qed.

Lemma positive_not_negative_signed (v : float) :
  (0 <? v) = true -> negative_signed v = false.
Proof.
  intros Hv. unfold negative_signed.
  now destruct (positive_Prim2SF v Hv) as [-> | (m & e & ->)].
Qed.

(** A positive number divided by a positive constant is not negative. *)
Lemma div_positive_not_negative (v c : float) (mc : positive) (ec : Z) :
  (0 <? v) = true -> Prim2SF c = S754_finite false mc ec ->
  negative_signed (v / c) = false.
Proof.
  intros Hv Hc. unfold negative_signed. rewrite FloatAxioms.div_spec, Hc.
  destruct (positive_Prim2SF v Hv) as [-> | (m & e & ->)]; [reflexivity |].
  unfold SF64div. cbn [SFdiv xorb].
  destruct (SFdiv_core_binary prec emax (Z.pos m) e (Z.pos mc) ec) as [[mz ez] lz].
  pose proof (binary_round_aux_unsigned mz ez lz) as H.
  destruct (binary_round_aux prec emax false mz ez lz) as [s | s | | s mr er];
    try destruct s; try discriminate; reflexivity.
Qed.

Lemma leb_constant_positive (v c : float) (mc : positive) (ec : Z) :
  Prim2SF c = S754_finite false mc ec -> (c <=? v) = true -> (0 <? v) = true.
Proof.
  intros Hc. rewrite FloatAxioms.leb_spec, FloatAxioms.ltb_spec, Hc, Prim2SF_zero.
  destruct (Prim2SF v) as [s | s | | s m e]; try destruct s; try discriminate; reflexivity.
Qed.

Lemma leb_constant_negative (v nc : float) (mc : positive) (ec : Z) :
  Prim2SF nc = S754_finite true mc ec -> (v <=? nc) = true -> (v <? 0) = true.
Proof.
  intros Hc. rewrite FloatAxioms.leb_spec, FloatAxioms.ltb_spec, Hc, Prim2SF_zero.
  destruct (Prim2SF v) as [s | s | | s m e]; try destruct s; try discriminate; reflexivity.
Qed.

Lemma leb_zero_positive (v : float) :
  (0 <=? v) = true -> (v =? 0) = false -> (0 <? v) = true.
Proof.
  rewrite FloatAxioms.leb_spec, FloatAxioms.ltb_spec, FloatAxioms.eqb_spec, Prim2SF_zero.
  destruct (Prim2SF v) as [s | s | | s m e]; try destruct s; try discriminate; reflexivity.
Qed.

Lemma eqb_zero_leb (v : float) : (v =? 0) = true -> (0 <=? v) = true.
Proof.
  rewrite FloatAxioms.leb_spec, FloatAxioms.eqb_spec, Prim2SF_zero.
  destruct (Prim2SF v) as [s | s | | s m e]; try destruct s; try discriminate; reflexivity.
Qed.

Lemma append_empty (s : string) : (s ++ EmptyString)%string = s.
Proof. induction s as [| a s IH]; [reflexivity | cbn; now rewrite IH]. Qed.

Lemma prefix_minus_sign (s : string) :
  first_char_is (ascii_of_nat 226) s = false -> prefix minus_sign s = false.
Proof.
  destruct s as [| b s]; [reflexivity |]. cbn [first_char_is]. intros H.
  unfold minus_sign. cbn [prefix].
  destruct (ascii_dec (ascii_of_nat 226) b) as [<- | _]; [| reflexivity].
  now rewrite Ascii.eqb_refl in H.
Qed.

(** The label of a positive number, without the sign: it begins with no
    hyphen and no minus sign. *)
Lemma unsigned_label_first_char (c : ascii) (x : float) (suffix : string) (withSign : bool) :
  forallb (fun a => negb (Ascii.eqb c a)) number_chars = true ->
  negative_signed x = false ->
  first_char_is c suffix = false ->
  first_char_is c ((if withSign then "+" else EmptyString) ++ JS.toString x ++ suffix) = false.
Proof.
  intros Hc Hx Hsuffix. destruct withSign.
  - cbn. now apply not_number_char; [| cbn; tauto].
  - cbn [append]. apply first_char_app; [now apply first_char_toString | exact Hsuffix].
Qed.

(** X9: the label of a number never begins with a hyphen, and it begins
    with the minus sign U+2212 exactly when [value >= 0] is false: for the
    negative numbers and for NaN. *)
Theorem prettyLabel_minus_glyph (v : float) (withSign : bool) :
  first_char_is "-" (prettyLabel (Num v) withSign) = false
  /\ prefix minus_sign (prettyLabel (Num v) withSign) = negb (0 <=? v).
Proof.
  assert (Hpositive : forall (x : float) (suffix : string),
             (0 <? v) = true -> negative_signed x = false ->
             (suffix = "M" \/ suffix = "K" \/ suffix = EmptyString)%string ->
             let label := ((if withSign then "+" else EmptyString)
                             ++ JS.toString x ++ suffix)%string in
             first_char_is "-" label = false
             /\ prefix minus_sign label = negb (0 <=? v)).
  { intros x suffix Hv Hx Hsuffix label.
    destruct (positive_tests v (-1000) _ _ Hv eq_refl) as (_ & -> & _).
    split; [| apply prefix_minus_sign];
      (apply unsigned_label_first_char; [reflexivity | exact Hx |]);
      destruct Hsuffix as [-> | [-> | ->]]; reflexivity. }
  assert (Hnegative : forall rest : string,
             (0 <=? v) = false ->
             first_char_is "-" (minus_sign ++ rest) = false
             /\ prefix minus_sign (minus_sign ++ rest) = negb (0 <=? v)).
  { intros rest ->. split; [reflexivity |].
    unfold minus_sign. cbn [append prefix].
    repeat match goal with
           | |- context [ascii_dec ?a ?a] => destruct (ascii_dec a a); [| contradiction]
           end.
    now destruct rest. }
  unfold prettyLabel.
  destruct (v =? 0) eqn:E0.
  { rewrite (eqb_zero_leb v E0). split; reflexivity. }
  destruct (1000000 <=? v) eqn:EM.
  { pose proof (leb_constant_positive v 1000000 _ _ eq_refl EM) as Hv.
    apply Hpositive; auto. exact (div_positive_not_negative v 1000000 _ _ Hv eq_refl). }
  destruct (1000 <=? v) eqn:EK.
  { pose proof (leb_constant_positive v 1000 _ _ eq_refl EK) as Hv.
    apply Hpositive; auto. exact (div_positive_not_negative v 1000 _ _ Hv eq_refl). }
  destruct (v <=? -1000000) eqn:EnM.
  { apply Hnegative.
    now apply (negative_tests v (leb_constant_negative v (-1000000) _ _ eq_refl EnM)). }
  destruct (v <=? -1000) eqn:EnK.
  { apply Hnegative.
    now apply (negative_tests v (leb_constant_negative v (-1000) _ _ eq_refl EnK)). }
  destruct (0 <=? v) eqn:Ege.
  - pose proof (leb_zero_positive v Ege E0) as Hv.
    rewrite <- (append_empty (JS.toString v)).
    apply Hpositive; auto. now apply positive_not_negative_signed.
  - now apply Hnegative.
Qed.

(** X4: [withSign] matters for positive numbers only: a string, a zero, a
    negative number and NaN have the same label with and without it. *)
Theorem prettyLabel_withSign_positive_only :
  (forall s : string, prettyLabel (Str s) true = prettyLabel (Str s) false)
  /\ (forall v : float,
         (0 <? v) = false -> prettyLabel (Num v) true = prettyLabel (Num v) false).
Proof.
  split; [reflexivity |].
  intros v Hv. unfold prettyLabel.
  destruct (v =? 0) eqn:E0; [reflexivity |].
  destruct (1000000 <=? v) eqn:EM.
  { rewrite (leb_constant_positive v 1000000 _ _ eq_refl EM) in Hv. discriminate. }
  destruct (1000 <=? v) eqn:EK.
  { rewrite (leb_constant_positive v 1000 _ _ eq_refl EK) in Hv. discriminate. }
  destruct (v <=? -1000000); [reflexivity |].
  destruct (v <=? -1000); [reflexivity |].
  destruct (0 <=? v) eqn:Ege; [| reflexivity].
  rewrite (leb_zero_positive v Ege E0) in Hv. discriminate.
Qed.

(** The labels of -5 and of NaN, with and without the sign. *)
Lemma prettyLabel_withSign_positive_only_witness :
  prettyLabel (Num (-5)) true = prettyLabel (Num (-5)) false
  /\ prettyLabel (Num nan) true = prettyLabel (Num nan) false.
Proof.
  destruct prettyLabel_withSign_positive_only as [_ H].
  split; apply H; reflexivity.
Defined.

(** ** The shape of a payload *)

Lemma fold_bin_step_length (min max stepSize : float) (nsteps : nat)
    (data cs : list float) :
  List.length (fold_left (bin_step min max stepSize nsteps) data cs) = List.length cs.
Proof.
  revert cs. induction data as [| d data IH]; intros cs; [reflexivity |].
  cbn [fold_left]. now rewrite IH, bin_step_length.
Qed.

Lemma bin_lengths (data : list float) (min max : float) (nsteps : nat) :
  List.length (counts (bin data min max nsteps)) = nsteps
  /\ List.length (centres (bin data min max nsteps)) = nsteps.
Proof.
  unfold bin. cbn [counts centres].
  now rewrite fold_bin_step_length, repeat_length, length_map, length_seq.
Qed.

(** X10: every payload that [makeChartData] returns has [nbars] labels,
    and each of its datasets is either a bar dataset with exactly [nbars]
    numbers, one per label, or a scatter dataset with exactly two points. *)
Theorem makeChartData_shape
    (Math_log10 : float -> float) (Math_pow : float -> float -> float)
    (makeColormap : string -> nat -> list string) (config : Config.t)
    (indicator : IndicatorName) (scenario : Scenario)
    (compareScenario : option Scenario) (nbars : nat) (chartStyle : string)
    (payload : ChartData) :
  makeChartData Math_log10 Math_pow makeColormap config
    indicator scenario compareScenario nbars chartStyle = Some payload ->
  List.length (labels payload) = nbars
  /\ Forall
       (fun d =>
          (ChartDataset.type d = "bar"%string
           /\ exists ns, ChartDataset.data d = ChartDataset.Numbers ns
                         /\ List.length ns = nbars)
          \/ (ChartDataset.type d = "scatter"%string
              /\ exists ps, ChartDataset.data d = ChartDataset.Points ps
                            /\ List.length ps = 2%nat))
       (datasets payload).
Proof.
  assert (Hbar : forall (label : string) (data : list float) (min max : float)
                   background width grouped order category bar dash color point radius,
             let d :=
               {| ChartDataset.type := "bar"; ChartDataset.label := label;
                  ChartDataset.data := ChartDataset.Numbers (counts (bin data min max nbars));
                  ChartDataset.backgroundColor := background;
                  ChartDataset.borderWidth := width; ChartDataset.showLine := None;
                  ChartDataset.grouped := grouped; ChartDataset.order := order;
                  ChartDataset.categoryPercentage := category;
                  ChartDataset.barPercentage := bar; ChartDataset.borderDash := dash;
                  ChartDataset.borderColor := color; ChartDataset.pointStyle := point;
                  ChartDataset.pointRadius := radius |} in
             (ChartDataset.type d = "bar"%string
              /\ exists ns, ChartDataset.data d = ChartDataset.Numbers ns
                            /\ List.length ns = nbars)
             \/ (ChartDataset.type d = "scatter"%string
                 /\ exists ps, ChartDataset.data d = ChartDataset.Points ps
                               /\ List.length ps = 2%nat)).
  { intros. left. split; [reflexivity |]. eexists. split; [reflexivity |].
    apply bin_lengths. }
  unfold makeChartData.
  destruct compareScenario as [compareScenario |].
  - destruct (String.eqb chartStyle "both");
      [| destruct (String.eqb chartStyle "difference"); [| discriminate]];
      intros [= <-].
    + unfold makeChartDataTwoScenarios. cbn [labels datasets].
      split; [apply bin_lengths |].
      repeat apply Forall_cons; try apply Forall_nil; try apply Hbar;
        right; split; try reflexivity; eexists; split; reflexivity.
    + unfold makeChartDataDifference. cbn [labels datasets].
      split; [apply bin_lengths |].
      repeat apply Forall_cons; try apply Forall_nil; apply Hbar.
  - intros [= <-]. unfold makeChartDataOneScenario. cbn [labels datasets].
    split; [apply bin_lengths |].
    repeat apply Forall_cons; try apply Forall_nil; try apply Hbar;
      right; split; try reflexivity; eexists; split; reflexivity.
Qed.

(** The overlay payload of the scenarios A and B with 2 bars. *)
Lemma makeChartData_shape_witness :
  List.length
    (labels (makeChartDataTwoScenarios Reference.log10 Reference.pow Reference.makeColormap
               (Reference.config 0 4) Reference.indicator
               Reference.scenarioA Reference.scenarioB 2)) = 2%nat.
Proof.
  apply (makeChartData_shape Reference.log10 Reference.pow Reference.makeColormap
           (Reference.config 0 4) Reference.indicator Reference.scenarioA
           (Some Reference.scenarioB) 2 "both").
  reflexivity.
Defined.

(** ** The tick step of a range that is not large *)

#[local] Open Scope Z_scope.

(** A mantissa of [d] binary digits lies between [2^(d-1)] and [2^d]. *)
Lemma digits2_pos_bounds (m : positive) :
  2 ^ (Z.pos (digits2_pos m) - 1) <= Z.pos m < 2 ^ Z.pos (digits2_pos m).
Proof.
  induction m as [m IH | m IH |]; cbn [digits2_pos]; [| | cbn; lia].
  all: set (d := digits2_pos m) in *.
  all: assert (Hp : 2 ^ Z.pos d = 2 * 2 ^ (Z.pos d - 1))
         by (rewrite <- Z.pow_succ_r by lia; f_equal; lia).
  all: replace (Z.pos (Pos.succ d) - 1) with (Z.pos d) by lia.
  all: replace (Z.pos (Pos.succ d)) with (Z.succ (Z.pos d)) by lia.
  all: rewrite Z.pow_succ_r by lia.
  all: lia.
Qed.

(** A valid float above the lowest exponent has a mantissa of 53 digits. *)
Lemma normal_mantissa (m : positive) (e : Z) :
  bounded prec emax m e = true -> -1074 < e -> 2 ^ 52 <= Z.pos m < 2 ^ 53.
Proof.
  intros Hb He. apply bounded64 in Hb. destruct Hb as [Hc _].
  assert (Hd : Z.pos (digits2_pos m) = 53) by lia.
  pose proof (digits2_pos_bounds m) as H. rewrite Hd in H. exact H.
Qed.

#[local] Close Scope Z_scope.

(** A float from 1 to 100: its exponent and mantissa. *)
Lemma between_1_and_100 (raw : float) :
  (1 <=? raw) = true -> (raw <=? 100) = true ->
  exists (m : positive) (e : Z),
    Prim2SF raw = S754_finite false m e
    /\ (-52 <= e <= -46 /\ 2 ^ 52 <= Z.pos m < 2 ^ 53
        /\ (e = -46 -> Z.pos m <= 100 * 2 ^ 46))%Z.
Proof.
  intros H1 H100.
  pose proof (Prim2SF_valid raw) as Hvalid.
  rewrite FloatAxioms.leb_spec in H1, H100.
  change (Prim2SF 1) with (S754_finite false 4503599627370496 (-52)) in H1.
  change (Prim2SF 100) with (S754_finite false 7036874417766400 (-46)) in H100.
  destruct (Prim2SF raw) as [s | s | | s m e]; try destruct s; try discriminate.
  exists m, e. split; [reflexivity |].
  unfold SFleb, SFcompare in H1, H100.
  assert (He1 : (-52 <= e)%Z).
  { destruct (Z.compare_spec (-52) e); try lia; discriminate. }
  assert (He2 : (e <= -46)%Z).
  { destruct (Z.compare_spec e (-46)); try lia; discriminate. }
  split; [lia |]. split.
  - apply (normal_mantissa m e Hvalid). lia.
  - intros ->. rewrite Z.compare_refl in H100.
    rewrite Pos.compare_cont_spec in H100. cbn [Pos.switch_Eq] in H100.
    change (100 * 2 ^ 46)%Z with 7036874417766400%Z.
    destruct (Pos.compare_spec m 7036874417766400%positive) as [Hm | Hm | Hm];
      try discriminate.
    + subst m. reflexivity.
    + apply Pos2Z.pos_lt_pos in Hm. clear - Hm. lia.
Qed.

(** Rounding a float from 1 to 100 gives a whole number from 1 to 100. *)
Lemma Math_round_between_1_and_100 (raw : float) :
  (1 <=? raw) = true -> (raw <=? 100) = true ->
  exists k : Z, (1 <= k <= 100)%Z /\ JS.Math_round raw = JS.of_Z k.
Proof.
  intros H1 H100.
  destruct (between_1_and_100 raw H1 H100) as (m & e & Hraw & He & Hm & Hlast).
  unfold JS.Math_round. rewrite Hraw.
  replace (0 <=? e)%Z with false by (symmetry; apply Z.leb_gt; lia).
  set (r := Qfloor (JS.exact m e + (1 # 2))).
  assert (Hr : (1 <= r <= 100)%Z).
  { subst r. unfold JS.exact.
    replace (0 <=? e)%Z with false by (symmetry; apply Z.leb_gt; lia).
    assert (Hcases : (e = -52 \/ e = -51 \/ e = -50 \/ e = -49 \/ e = -48 \/ e = -47
                      \/ e = -46)%Z) by lia.
    destruct Hcases as [-> | [-> | [-> | [-> | [-> | [-> | ->]]]]]];
      try specialize (Hlast eq_refl);
      cbn [Z.opp Z.pow Z.pow_pos Pos.iter Z.mul Pos.mul Z.to_pos Qplus Qnum Qden Qfloor];
      (split; [apply Z.div_le_lower_bound | apply Z.lt_succ_r, Z.div_lt_upper_bound]);
      clear - Hm Hlast; lia. }
  exists r. split; [exact Hr |].
  replace (r =? 0)%Z with false by (symmetry; apply Z.eqb_neq; lia).
  reflexivity.
Qed.

Lemma of_Z_positive (k : Z) : (1 <= k <= 100)%Z -> (0 <? JS.of_Z k) = true.
Proof.
  intros Hk. destruct k as [| p | p]; try lia.
  do 7 (try (destruct p as [p | p |]; try lia; try reflexivity)).
Qed.

(** X11: when a quarter of the range is a number not above 100, the tick
    step is 0.5 or a whole number from 1 to 100, whatever the platform's
    logarithm and power are; in particular it is positive, never zero
    and never NaN. *)
Theorem calculateTickStepSize_small_range
    (Math_log10 : float -> float) (Math_pow : float -> float -> float)
    (max min : float) :
  let raw := (max - min) / 4 in
  let step := calculateTickStepSize Math_log10 Math_pow max min in
  is_nan raw = false -> (100 <? raw) = false ->
  (step = 0.5 \/ exists k : Z, (1 <= k <= 100)%Z /\ step = JS.of_Z k)
  /\ (0 <? step) = true.
Proof.
  intros raw step Hnan H100. subst step. unfold calculateTickStepSize. fold raw.
  destruct (raw <? 0.5) eqn:Ehalf; [split; [now left | reflexivity] |].
  destruct (raw <? 1) eqn:Eone.
  { split; [right; exists 1%Z; split; [lia | reflexivity] | reflexivity]. }
  rewrite H100.
  destruct (Math_round_between_1_and_100 raw) as (k & Hk & ->).
  - now apply leb_total.
  - now apply leb_total.
  - split; [right; now exists k | now apply of_Z_positive].
Qed.

(** The range from 0 to 104 on the reference platform. *)
Lemma calculateTickStepSize_small_range_witness :
  (0 <? calculateTickStepSize Reference.log10 Reference.pow 104 0) = true.
Proof.
  apply (calculateTickStepSize_small_range Reference.log10 Reference.pow 104 0);
    reflexivity.
Defined.

(** ** Counting in binary64 is exact below 2^53 *)

#[local] Open Scope Z_scope.

Lemma iter_pos_Pos_iter {A : Type} (f : A -> A) (k : positive) (x : A) :
  iter_pos f k x = Pos.iter f x k.
Proof.
  revert x. induction k as [k IH | k IH |]; intros x; cbn [iter_pos Pos.iter].
  - now rewrite !IH, <- !Pos.iter_swap.
  - now rewrite !IH.
  - reflexivity.
Qed.

(** Shifting right the bits that a shift to the left added loses nothing. *)
Lemma shr_shift_pos (k m : positive) :
  iter_pos shr_1 k (Build_shr_record (Z.pos (Pos.iter xO m k)) false false)
  = Build_shr_record (Z.pos m) false false.
Proof.
  rewrite iter_pos_Pos_iter.
  induction k as [| k IH] using Pos.peano_ind.
  - reflexivity.
  - rewrite !Pos.iter_succ, <- Pos.iter_swap. exact IH.
Qed.

Lemma digits2_pos_shift (k m : positive) :
  Z.pos (digits2_pos (Pos.iter xO m k)) = Z.pos (digits2_pos m) + Z.pos k.
Proof.
  induction k as [| k IH] using Pos.peano_ind.
  - cbn. lia.
  - rewrite Pos.iter_succ. cbn [digits2_pos]. lia.
Qed.

Lemma value_shift (k m : positive) :
  Z.pos (Pos.iter xO m k) = Z.pos m * 2 ^ Z.pos k.
Proof.
  induction k as [| k IH] using Pos.peano_ind.
  - cbn. lia.
  - rewrite Pos.iter_succ, Pos2Z.inj_succ, Z.pow_succ_r by lia.
    rewrite Pos2Z.inj_xO, IH. lia.
Qed.

(** Rounding a mantissa of 53 digits that is followed by [k] zero bits
    removes the zero bits. *)
Lemma binary_round_aux_shifted (k m : positive) (e : Z) :
  Z.pos (digits2_pos m) = 53 -> -1074 <= e + Z.pos k <= 971 ->
  binary_round_aux prec emax false (Z.pos (Pos.iter xO m k)) e loc_Exact
  = S754_finite false m (e + Z.pos k).
Proof.
  intros Hd He. unfold binary_round_aux.
  rewrite (shr_fexp_by _ _ _ (Z.pos k))
    by (rewrite fexp64; cbn [Zdigits2]; rewrite digits2_pos_shift; lia).
  cbn [shr shr_record_of_loc]. rewrite shr_shift_pos.
  cbn [shr_m loc_of_shr_record round_nearest_even].
  rewrite (shr_fexp_by (Z.pos m) _ _ 0) by (rewrite fexp64; cbn [Zdigits2]; lia).
  cbn [shr shr_record_of_loc shr_m].
  replace (e + Z.pos k <=? emax - prec) with true by (symmetry; apply Z.leb_le; cbn; lia).
  reflexivity.
Qed.

(** The float of a positive integer of at most 53 binary digits: its
    mantissa is the integer shifted to 53 digits. *)
Lemma binary_normalize_int (p : positive) :
  Z.pos (digits2_pos p) <= 53 ->
  exists m : positive,
    binary_normalize prec emax (Z.pos p) 0 false
    = S754_finite false m (Z.pos (digits2_pos p) - 53)
    /\ Z.pos (digits2_pos m) = 53
    /\ Z.pos m = Z.pos p * 2 ^ (53 - Z.pos (digits2_pos p)).
Proof.
  intros Hd. unfold binary_normalize, binary_round, shl_align.
  rewrite fexp64.
  replace (Z.max (Z.pos (digits2_pos p) + 0 - 53) (-1074) - 0)
    with (Z.pos (digits2_pos p) - 53) by lia.
  replace (Z.max (Z.pos (digits2_pos p) + 0 - 53) (-1074))
    with (Z.pos (digits2_pos p) - 53) by lia.
  destruct (Z.pos (digits2_pos p) - 53) as [| j | j] eqn:Ej; try lia.
  - exists p. split; [| split; [lia |]].
    + apply binary_round_aux_exact; lia.
    + replace (53 - Z.pos (digits2_pos p)) with 0 by lia. lia.
  - exists (Pos.iter xO p j). split; [| split].
    + rewrite <- Ej. apply binary_round_aux_exact; rewrite ?digits2_pos_shift; lia.
    + rewrite digits2_pos_shift. lia.
    + rewrite value_shift. f_equal. f_equal. lia.
Qed.

Lemma digits2_pos_le (p : positive) (d : Z) :
  0 <= d -> Z.pos p < 2 ^ d -> Z.pos (digits2_pos p) <= d.
Proof.
  intros Hd Hp. pose proof (digits2_pos_bounds p) as [Hlow _].
  apply Z.lt_succ_r. replace (Z.succ d) with (d + 1) by lia.
  assert (H : 2 ^ (Z.pos (digits2_pos p) - 1) < 2 ^ d) by lia.
  apply Z.pow_lt_mono_r_iff in H; lia.
Qed.

(** Adding 1 to the float of an integer below [2^53 - 1] gives the float of
    the next integer. *)
Lemma SFadd_int_one (p : positive) :
  Z.pos p + 1 < 2 ^ 53 ->
  SF64add (binary_normalize prec emax (Z.pos p) 0 false)
    (S754_finite false 4503599627370496 (-52))
  = binary_normalize prec emax (Z.pos (p + 1)) 0 false.
Proof.
  intros Hp.
  assert (Hd : Z.pos (digits2_pos p) <= 53) by (apply digits2_pos_le; lia).
  assert (Hd' : Z.pos (digits2_pos (p + 1)) <= 53) by (apply digits2_pos_le; lia).
  destruct (binary_normalize_int p Hd) as (m & -> & Hm & Hvalue).
  destruct (binary_normalize_int (p + 1) Hd') as (m' & -> & Hm' & Hvalue').
  pose proof (digits2_pos_bounds (p + 1)) as Hbounds'.
  set (d := Z.pos (digits2_pos p)) in *.
  set (d' := Z.pos (digits2_pos (p + 1))) in *.
  assert (Hd2 : 2 <= d').
  { destruct (Z.le_gt_cases 2 d') as [H | H]; [exact H |].
    assert (d' = 1) by lia.
    replace d' with 1 in Hbounds' by lia. cbn in Hbounds'. lia. }
  unfold SF64add, SFadd. cbv zeta.
  replace (Z.min (d - 53) (-52)) with (-52) by lia.
  assert (Hsum : exists P : positive,
             cond_Zopp false (Z.pos (fst (shl_align m (d - 53) (-52))))
             + cond_Zopp false (Z.pos (fst (shl_align 4503599627370496 (-52) (-52))))
             = Z.pos P
             /\ Z.pos P = Z.pos (p + 1) * 2 ^ 52).
  { unfold shl_align, cond_Zopp. change (-52 - -52) with 0. cbn [fst].
    destruct (-52 - (d - 53)) as [| j | j] eqn:Ej; try lia; cbn [fst].
    - exists (m + 4503599627370496)%positive. split; [reflexivity |].
      rewrite Pos2Z.inj_add, Hvalue. replace (53 - d) with 52 by lia.
      change (2 ^ 52) with 4503599627370496. lia.
    - exists (Pos.iter xO m j + 4503599627370496)%positive. split; [reflexivity |].
      rewrite Pos2Z.inj_add, value_shift, Hvalue.
      replace (Z.pos j) with (d - 1) by lia.
      rewrite <- Z.mul_assoc, <- Z.pow_add_r by lia.
      replace (53 - d + (d - 1)) with 52 by lia.
      change (2 ^ 52) with 4503599627370496. lia. }
  destruct Hsum as (P & -> & HP).
  assert (HPshift : P = Pos.iter xO m' (Z.to_pos (d' - 1))).
  { apply Pos2Z.inj. rewrite value_shift, HP, Hvalue', Z2Pos.id by lia.
    rewrite <- Z.mul_assoc, <- Z.pow_add_r by lia.
    f_equal. f_equal. lia. }
  unfold binary_normalize, binary_round, shl_align. rewrite fexp64.
  cbn [Zdigits2].
  assert (HdP : Z.pos (digits2_pos P) = d' + 52).
  { rewrite HPshift, digits2_pos_shift, Z2Pos.id by lia. lia. }
  rewrite HdP.
  replace (Z.max (d' + 52 + -52 - 53) (-1074) - -52) with (d' - 1) by lia.
  destruct (d' - 1) as [| j | j] eqn:Ej; try lia.
  rewrite HPshift. cbn [Z.to_pos].
  rewrite binary_round_aux_shifted by lia.
  f_equal. lia.
Qed.

#[local] Close Scope Z_scope.
#[local] Open Scope float_scope.

Lemma Prim2SF_of_N (n : N) :
  (Z.of_N n < 2 ^ 53)%Z ->
  Prim2SF (JS.of_N n) = binary_normalize prec emax (Z.of_N n) 0 false.
Proof.
  intros Hn. unfold JS.of_N. rewrite of_uint63_spec, Uint63.of_Z_spec.
  rewrite Z.mod_small; [reflexivity |].
  split; [lia |]. apply (Z.lt_trans _ (2 ^ 53)); [exact Hn | reflexivity].
Qed.

(** Counting up is exact below [2^53]: the float of an integer plus 1 is
    the float of the next integer. *)
Lemma of_N_succ (n : N) :
  (Z.of_N n + 1 < 2 ^ 53)%Z -> JS.of_N n + 1 = JS.of_N (n + 1).
Proof.
  intros Hn. destruct n as [| p]; [reflexivity |].
  apply Prim2SF_inj.
  rewrite FloatAxioms.add_spec, !Prim2SF_of_N by (cbn [N.add Z.of_N] in *; lia).
  apply (SFadd_int_one p Hn).
Qed.

Lemma count_of_exact (k : nat) :
  (Z.of_nat k < 2 ^ 53)%Z -> count_of k = JS.of_nat k.
Proof.
  induction k as [| k IH]; intros Hk; [reflexivity |].
  change (count_of (S k)) with (count_of k + 1).
  rewrite IH by lia. unfold JS.of_nat.
  rewrite of_N_succ by lia. f_equal. lia.
Qed.

(** ** The counts as integers *)

Lemma incr_count_of (i : nat) (hs : list nat) :
  incr i (map count_of hs) = map count_of (incr_nat i hs).
Proof.
  revert i. induction hs as [| h hs IH]; intros [| i]; cbn; try reflexivity.
  now rewrite IH.
Qed.

Lemma fold_incr_count_of (idxs : list nat) (hs : list nat) :
  fold_left (fun cs i => incr i cs) idxs (map count_of hs)
  = map count_of (fold_left (fun hs i => incr_nat i hs) idxs hs).
Proof.
  revert hs. induction idxs as [| i idxs IH]; intros hs; [reflexivity |].
  cbn [fold_left]. now rewrite incr_count_of, IH.
Qed.

Lemma incr_nat_length (i : nat) (hs : list nat) :
  List.length (incr_nat i hs) = List.length hs.
Proof. revert i. induction hs as [| h hs IH]; intros [| i]; cbn; auto. Qed.

Lemma incr_nat_sum (i : nat) (hs : list nat) :
  (list_sum (incr_nat i hs) <= S (list_sum hs))%nat.
Proof.
  unfold list_sum.
  revert i. induction hs as [| h hs IH]; intros [| i]; cbn [incr_nat fold_right]; try lia.
  specialize (IH i). lia.
Qed.

Lemma fold_incr_nat (idxs hs : list nat) :
  let hs' := fold_left (fun hs i => incr_nat i hs) idxs hs in
  List.length hs' = List.length hs
  /\ (list_sum hs' <= list_sum hs + List.length idxs)%nat.
Proof.
  revert hs. induction idxs as [| i idxs IH]; intros hs; cbn [fold_left List.length].
  - cbn. lia.
  - destruct (IH (incr_nat i hs)) as [Hlen Hsum].
    rewrite incr_nat_length in Hlen. pose proof (incr_nat_sum i hs). cbn zeta. lia.
Qed.

(** Every value is counted at most once, a value equal to [max] at most
    twice. *)
Lemma increments_length (min max stepSize : float) (nsteps : nat) (data : list float) :
  (List.length (flat_map (increments min max stepSize nsteps) data)
   <= List.length data + List.length (filter (fun d => (d =? max)%float) data))%nat.
Proof.
  induction data as [| d data IH]; [cbn; lia |].
  cbn [flat_map filter List.length]. rewrite length_app.
  assert (Hd : (List.length (increments min max stepSize nsteps d)
                <= 1 + if (d =? max)%float then 1 else 0)%nat).
  { unfold increments. rewrite length_app.
    destruct (d =? max), nsteps, ((0 <=? _) && _)%bool; cbn; lia. }
  destruct (d =? max); cbn [List.length] in *; lia.
Qed.

Lemma list_sum_member (h : nat) (hs : list nat) : In h hs -> (h <= list_sum hs)%nat.
Proof.
  induction hs as [| h' hs IH]; [contradiction |].
  unfold list_sum in *.
  intros [-> | Hin]; cbn [fold_right]; [lia | specialize (IH Hin); lia].
Qed.

Lemma list_sum_zeros (n : nat) : list_sum (repeat 0%nat n) = 0%nat.
Proof. induction n as [| n IH]; [reflexivity | exact IH]. Qed.

(** X12: for fewer than [2^52] values, the counts that [bin] returns are
    non-negative integers, [nsteps] of them, and they total at most the
    number of values plus the number of values equal to [max]. *)
Theorem bin_counts_integers (data : list float) (min max : float) (nsteps : nat) :
  (Z.of_nat (List.length data) < 2 ^ 52)%Z ->
  exists hs : list nat,
    counts (bin data min max nsteps) = map JS.of_nat hs
    /\ List.length hs = nsteps
    /\ (list_sum hs
        <= List.length data + List.length (filter (fun d => (d =? max)%float) data))%nat.
Proof.
  intros Hdata.
  set (stepSize := (max - min) / JS.of_nat nsteps).
  set (idxs := flat_map (increments min max stepSize nsteps) data).
  set (hs := fold_left (fun hs i => incr_nat i hs) idxs (repeat 0%nat nsteps)).
  destruct (fold_incr_nat idxs (repeat 0%nat nsteps)) as [Hlen Hsum]. fold hs in Hlen, Hsum.
  pose proof (increments_length min max stepSize nsteps data) as Hidxs. fold idxs in Hidxs.
  pose proof (filter_length_le (fun d => (d =? max)%float) data) as Hfilter.
  pose proof (list_sum_zeros nsteps) as Hzero.
  exists hs. split; [| split].
  - rewrite bin_counts_increments. fold stepSize. fold idxs.
    replace (repeat 0 nsteps) with (map count_of (repeat 0%nat nsteps))
      by (rewrite map_repeat; reflexivity).
    rewrite fold_incr_count_of. fold hs.
    apply map_ext_in. intros h Hin. apply count_of_exact.
    apply list_sum_member in Hin. lia.
  - rewrite Hlen. apply repeat_length.
  - lia.
Qed.

(** The two values of the range from 0 to 50 with 11 bins. *)
Lemma bin_counts_integers_witness :
  exists hs : list nat,
    counts (bin [25; 50] 0 50 11) = map JS.of_nat hs
    /\ List.length hs = 11%nat
    /\ (list_sum hs <= 3)%nat.
Proof.
  apply (bin_counts_integers [25; 50] 0 50 11). reflexivity.
Defined.

(** ** The difference chart with the two scenarios exchanged *)

Lemma SFopp_binary_round_aux (s : bool) (m e : Z) (l : location) :
  SFopp (binary_round_aux prec emax s m e l) = binary_round_aux prec emax (negb s) m e l.
Proof.
  unfold binary_round_aux.
  destruct (shr_fexp prec emax m e l) as [mrs' e'].
  destruct (shr_fexp prec emax _ e' loc_Exact) as [mrs'' e''].
  destruct (shr_m mrs''); try reflexivity.
  destruct (e'' <=? emax - prec)%Z; reflexivity.
Qed.

Lemma SFopp_binary_normalize (m e : Z) :
  m <> 0%Z ->
  binary_normalize prec emax (- m) e false = SFopp (binary_normalize prec emax m e false).
Proof.
  intros Hm. destruct m as [| p | p]; [congruence | |];
    cbn [Z.opp binary_normalize]; unfold binary_round;
    destruct (shl_align _ _ _) as [mz ez];
    now rewrite SFopp_binary_round_aux.
Qed.

(** Subtracting the other way round gives the opposite number, or both
    differences are zero. *)
Lemma SFsub_swap (x y : spec_float) :
  SFsub prec emax y x = SFopp (SFsub prec emax x y)
  \/ (exists s s', SFsub prec emax x y = S754_zero s /\ SFsub prec emax y x = S754_zero s').
Proof.
  destruct x as [sx | sx | | sx mx ex], y as [sy | sy | | sy my ey];
    try (destruct sx); try (destruct sy);
    try (left; reflexivity); try (right; do 2 eexists; split; reflexivity).
  all: cbn [SFsub]; rewrite (Z.min_comm ey ex);
    set (ez := Z.min ex ey);
    match goal with
    | |- context [binary_normalize _ _ (?a - ?b)%Z ez false] =>
        set (A := a); set (B := b)
    end;
    replace (A - B)%Z with (- (B - A))%Z by lia;
    destruct (Z.eq_dec (B - A) 0) as [E | E];
    [ right; rewrite E; do 2 eexists; split; reflexivity
    | left; rewrite (SFopp_binary_normalize _ _ E);
      destruct (binary_normalize prec emax (B - A) ez false) as [[] | [] | | [] ? ?];
      reflexivity ].
Qed.

Lemma SFeqb_zero (x : spec_float) :
  SFeqb x (S754_zero false) = true <-> exists s, x = S754_zero s.
Proof.
  split.
  - destruct x as [[] | [] | | [] ? ?]; try discriminate; eauto.
  - intros [[] ->]; reflexivity.
Qed.

Lemma sub_swap (a b : float) :
  (b - a =? 0) = (a - b =? 0)
  /\ ((a - b =? 0) = false -> b - a = - (a - b)).
Proof.
  assert (Hopp : Prim2SF (b - a) = SFopp (Prim2SF (a - b)) -> b - a = - (a - b)).
  { intros H. apply Prim2SF_inj. now rewrite FloatAxioms.opp_spec. }
  revert Hopp.
  rewrite !FloatAxioms.eqb_spec, Prim2SF_zero, !FloatAxioms.sub_spec.
  unfold SF64sub. intros Hopp.
  destruct (SFsub_swap (Prim2SF a) (Prim2SF b)) as [E | (s & s' & E & E')].
  - split; [| auto]. rewrite E.
    destruct (SFsub prec emax (Prim2SF a) (Prim2SF b)) as [[] | [] | | [] ? ?];
      reflexivity.
  - rewrite E, E'. split; [destruct s, s'; reflexivity |].
    destruct s; discriminate.
Qed.

Lemma opp_involutive (x : float) : - - x = x.
Proof.
  apply Prim2SF_inj. rewrite !FloatAxioms.opp_spec.
  destruct (Prim2SF x) as [[] | [] | | [] ? ?]; reflexivity.
Qed.

Lemma abs_opp (x : float) : abs (- x) = abs x.
Proof.
  apply Prim2SF_inj. rewrite !FloatAxioms.abs_spec, FloatAxioms.opp_spec.
  destruct (Prim2SF x) as [[] | [] | | [] ? ?]; reflexivity.
Qed.

Lemma is_nan_opp (x : float) : is_nan (- x) = is_nan x.
Proof.
  unfold is_nan. rewrite !FloatAxioms.eqb_spec, FloatAxioms.opp_spec.
  destruct (Prim2SF x) as [[] | [] | | [] ? ?]; try reflexivity;
    cbn; now rewrite Z.compare_refl, Pos.compare_cont_refl.
Qed.

Lemma SFcompare_opp (x y : spec_float) :
  SFcompare (SFopp x) (SFopp y) = SFcompare y x.
Proof.
  destruct x as [sx | sx | | sx mx ex], y as [sy | sy | | sy my ey];
    try (destruct sx); try (destruct sy); try reflexivity;
    cbn [SFopp negb SFcompare];
    rewrite (Z.compare_antisym ex ey);
    destruct (ex ?= ey)%Z; cbn [CompOpp]; try reflexivity;
    rewrite ?(Pos.compare_cont_antisym mx my Eq), ?(Pos.compare_cont_antisym my mx Eq);
    reflexivity.
Qed.

Lemma ltb_opp (a b : float) : (- a <? - b) = (b <? a).
Proof.
  rewrite !FloatAxioms.ltb_spec, !FloatAxioms.opp_spec. unfold SFltb.
  now rewrite SFcompare_opp.
Qed.

(** Two numbers neither of which is below the other are the same number,
    or they are zeros. *)
Lemma equal_or_zeros (a b : float) :
  is_nan a = false -> is_nan b = false -> (a <? b) = false -> (b <? a) = false ->
  a = b \/ ((a = 0 \/ a = neg_zero) /\ (b = 0 \/ b = neg_zero)).
Proof.
  intros Ha Hb. apply is_nan_Prim2SF in Ha, Hb.
  rewrite !FloatAxioms.ltb_spec. unfold SFltb.
  rewrite (SFcompare_antisym (Prim2SF a) (Prim2SF b)).
  assert (Hzero : forall x s, Prim2SF x = S754_zero s -> x = 0 \/ x = neg_zero).
  { intros x [] E; [right | left]; apply Prim2SF_inj; rewrite E; reflexivity. }
  destruct (Prim2SF a) as [sa | sa | | sa ma ea] eqn:Ea;
    destruct (Prim2SF b) as [sb | sb | | sb mb eb] eqn:Eb;
    try congruence;
    try (right; split; eauto; fail);
    try (destruct sa, sb; discriminate);
    try (destruct sa; discriminate);
    try (destruct sb; discriminate).
  - intros H1 H2. left. apply Prim2SF_inj. rewrite Ea, Eb.
    destruct sa, sb; try reflexivity; discriminate.
  - intros H1 H2. left. apply Prim2SF_inj. rewrite Ea, Eb.
    destruct sa, sb; cbn [SFcompare option_map] in H1, H2; try discriminate;
      destruct (ea ?= eb)%Z eqn:Ee; try discriminate;
      apply Z.compare_eq in Ee; subst eb;
      destruct (Pos.compare_cont Eq ma mb) eqn:Em; try discriminate;
      apply Pos.compare_eq in Em; now subst mb.
Qed.

Lemma min2_opp (a b : float) : JS.min2 (- a) (- b) = - JS.max2 a b.
Proof.
  unfold JS.min2, JS.max2. rewrite !is_nan_opp, !ltb_opp.
  destruct (is_nan a) eqn:Ha; [reflexivity |].
  destruct (is_nan b) eqn:Hb; [reflexivity |].
  destruct (a <? b) eqn:Hab, (b <? a) eqn:Hba; try reflexivity.
  - exfalso. revert Hab Hba. rewrite !FloatAxioms.ltb_spec. unfold SFltb.
    rewrite (SFcompare_antisym (Prim2SF a) (Prim2SF b)).
    destruct (SFcompare (Prim2SF a) (Prim2SF b)) as [[] |]; discriminate.
  - destruct (equal_or_zeros a b Ha Hb Hab Hba) as [-> | [[-> | ->] [-> | ->]]];
      [destruct (get_sign (- b)), (get_sign b) | | | |]; reflexivity.
Qed.

Lemma max2_opp (a b : float) : JS.max2 (- a) (- b) = - JS.min2 a b.
Proof.
  rewrite <- (opp_involutive (JS.max2 (- a) (- b))), <- min2_opp.
  now rewrite !opp_involutive.
Qed.

Lemma max2_comm (a b : float) : JS.max2 a b = JS.max2 b a.
Proof.
  unfold JS.max2.
  destruct (is_nan a) eqn:Ha, (is_nan b) eqn:Hb; try reflexivity.
  - apply is_nan_eq in Ha, Hb. congruence.
  - destruct (a <? b) eqn:Hab, (b <? a) eqn:Hba; try reflexivity.
    + exfalso. revert Hab Hba. rewrite !FloatAxioms.ltb_spec. unfold SFltb.
      rewrite (SFcompare_antisym (Prim2SF a) (Prim2SF b)).
      destruct (SFcompare (Prim2SF a) (Prim2SF b)) as [[] |]; discriminate.
    + destruct (equal_or_zeros a b Ha Hb Hab Hba) as [-> | [[-> | ->] [-> | ->]]];
        [destruct (get_sign b) | | | |]; reflexivity.
Qed.

Lemma max2_neg_infinity (p : float) : JS.max2 neg_infinity p = p.
Proof.
  unfold JS.max2. change (is_nan neg_infinity) with false. cbn [negb].
  destruct (is_nan p); [reflexivity |].
  destruct (neg_infinity <? p); [reflexivity |].
  replace (p <? neg_infinity) with false; [reflexivity |].
  rewrite FloatAxioms.ltb_spec. change (Prim2SF neg_infinity) with (S754_infinity true).
  destruct (Prim2SF p) as [[] | [] | | [] ? ?]; reflexivity.
Qed.

Lemma Math_min_opp (xs : list float) :
  JS.Math_min (map PrimFloat.opp xs) = - JS.Math_max xs.
Proof.
  unfold JS.Math_min, JS.Math_max.
  change infinity with (- neg_infinity).
  generalize neg_infinity as acc.
  induction xs as [| x xs IH]; intros acc; [reflexivity |].
  cbn [map fold_left]. now rewrite min2_opp, IH.
Qed.

Lemma Math_max_opp (xs : list float) :
  JS.Math_max (map PrimFloat.opp xs) = - JS.Math_min xs.
Proof.
  unfold JS.Math_min, JS.Math_max.
  change neg_infinity with (- infinity).
  generalize infinity as acc.
  induction xs as [| x xs IH]; intros acc; [reflexivity |].
  cbn [map fold_left]. now rewrite max2_opp, IH.
Qed.

(** The range of the difference chart is the same for the opposite
    differences. *)
Lemma differenceMax_opp (rawValues : list float) :
  differenceMax (map PrimFloat.opp rawValues) = differenceMax rawValues.
Proof.
  unfold differenceMax. rewrite Math_min_opp, Math_max_opp.
  unfold JS.Math_abs. rewrite !abs_opp.
  set (lo := abs (JS.Math_min rawValues)). set (hi := abs (JS.Math_max rawValues)).
  unfold JS.Math_max. cbn [fold_left].
  rewrite !max2_neg_infinity. f_equal. apply max2_comm.
Qed.

Lemma differences_aligned (pre scenValues cmpScenValues : list float) :
  List.length scenValues = List.length cmpScenValues ->
  map (fun '(i, value) => value - nth i (pre ++ cmpScenValues) nan)
    (combine (seq (List.length pre) (List.length scenValues)) scenValues)
  = map (fun '(value, cmpValue) => value - cmpValue) (combine scenValues cmpScenValues).
Proof.
  revert pre cmpScenValues.
  induction scenValues as [| x xs IH]; intros pre [| y ys] Hlen;
    try discriminate; [reflexivity |].
  cbn [List.length seq combine map]. rewrite nth_middle. f_equal.
  specialize (IH (pre ++ [y])%list ys).
  rewrite <- app_assoc, length_app, Nat.add_1_r in IH. apply IH.
  now injection Hlen.
Qed.

(** With as many values on both sides, the retained differences taken the
    other way round are the opposite numbers. *)
Lemma differences_swap (scenValues cmpScenValues : list float) :
  List.length scenValues = List.length cmpScenValues ->
  differences cmpScenValues scenValues
  = map PrimFloat.opp (differences scenValues cmpScenValues).
Proof.
  intros Hlen. unfold differences.
  pose proof (differences_aligned [] scenValues cmpScenValues Hlen) as E.
  pose proof (differences_aligned [] cmpScenValues scenValues (eq_sym Hlen)) as E'.
  cbn [app List.length] in E, E'. rewrite E, E'. clear E E'.
  clear Hlen. revert cmpScenValues.
  induction scenValues as [| x xs IH]; intros [| y ys]; try reflexivity.
  cbn [combine map filter]. destruct (sub_swap x y) as [-> Hopp].
  destruct (x - y =? 0); cbn [negb map]; [apply IH |].
  now rewrite Hopp, IH.
Qed.

(** X13: in difference mode, for two scenarios with as many areas, the
    axis of the chart does not depend on which scenario is subtracted from
    which: exchanging the scenarios gives the same labels (bin centres)
    and the same tick step. *)
Theorem difference_axis_symmetric
    (Math_log10 : float -> float) (Math_pow : float -> float -> float)
    (makeColormap : string -> nat -> list string)
    (indicator : IndicatorName) (scenario compareScenario : Scenario) (nbars : nat) :
  List.length (values scenario) = List.length (values compareScenario) ->
  let forward :=
    makeChartDataDifference Math_log10 Math_pow makeColormap
      indicator scenario compareScenario nbars in
  let backward :=
    makeChartDataDifference Math_log10 Math_pow makeColormap
      indicator compareScenario scenario nbars in
  labels backward = labels forward /\ tickStepSize backward = tickStepSize forward.
Proof.
  intros Hlen forward backward. subst forward backward.
  unfold makeChartDataDifference. cbn [labels tickStepSize].
  rewrite (differences_swap (getValues indicator scenario)
             (getValues indicator compareScenario))
    by (unfold getValues; now rewrite !length_map).
  rewrite differenceMax_opp. split; reflexivity.
Qed.

(** Scenarios A and B, which cover the same two areas. *)
Lemma difference_axis_symmetric_witness :
  labels (makeChartDataDifference Reference.log10 Reference.pow Reference.makeColormap
            Reference.indicator Reference.scenarioB Reference.scenarioA 4)
  = labels (makeChartDataDifference Reference.log10 Reference.pow Reference.makeColormap
              Reference.indicator Reference.scenarioA Reference.scenarioB 4).
Proof.
  apply (difference_axis_symmetric Reference.log10 Reference.pow Reference.makeColormap
           Reference.indicator Reference.scenarioA Reference.scenarioB 4).
  reflexivity.
Defined.
